(** * SPADES event-camera data loader: a shallow embedding of
      [DataLoading/data_loader.py] and the properties of its index builder,
      accessor, event codec, frame renderer and sample materializer. *)

From Stdlib Require Import ZArith QArith Qround String Ascii List Lia SpecFloat.
From Stdlib Require Import DecimalString DecimalNat.
From stdpp Require Import base option list strings gmap sorting.

Local Open Scope Z_scope.

(** ** Python exceptions and the result of a fallible computation *)

Inductive exn :=
  | IndexError
  | FileNotFoundError
  | NotADirectoryError
  | FileExistsError
  | TypeError
  | ValueError
  | ParserError
  | EmptyDataError
  | AssertionError.

Inductive result (A : Type) :=
  | Ok (a : A)
  | Err (e : exn).
Arguments Ok {A} a.
Arguments Err {A} e.

#[global] Instance result_ret : MRet result := λ A a, Ok a.
#[global] Instance result_bind : MBind result := λ A B f r,
  match r with Ok a => f a | Err e => Err e end.
#[global] Instance result_fmap : FMap result := λ A B f r,
  match r with Ok a => Ok (f a) | Err e => Err e end.

Definition is_Ok {A} (r : result A) : Prop := ∃ a, r = Ok a.

(** ** IEEE binary64 numbers

    Python floats and NumPy [float64] values are IEEE binary64; they are
    modelled by the standard library's [spec_float] at precision 53. *)

Module Float64.
Definition prec : Z := 53.
Definition emax : Z := 1024.

Definition mul : spec_float → spec_float → spec_float := SFmul prec emax.

(** [float(z)] for a Python integer [z]. *)
Definition of_int (z : Z) : spec_float := binary_normalize prec emax z 0 false.

Definition is_finite (f : spec_float) : bool :=
  match f with
  | S754_zero _ | S754_finite _ _ _ => true
  | _ => false
  end.

(** The rational number a finite binary64 denotes. *)
Definition to_Q (f : spec_float) : Q :=
  match f with
  | S754_finite s m e =>
      match e with
      | Zneg p => cond_Zopp s (Zpos m) # (2 ^ p)%positive
      | _ => inject_Z (cond_Zopp s (Zpos m) * 2 ^ e)
      end
  | _ => 0%Q
  end.

(** Truncation toward zero, the C conversion of a float to an integer. *)
Definition trunc (f : spec_float) : Z :=
  match f with
  | S754_finite s m e => cond_Zopp s (Z.shiftl (Zpos m) e)
  | _ => 0
  end.

(** A value of the normalized range [0,1]. *)
Definition in_unit (f : spec_float) : Prop :=
  is_finite f = true ∧ (0 <= to_Q f)%Q ∧ (to_Q f <= 1)%Q.
End Float64.

(** ** NumPy arrays of shape (h, w, c) and dtype uint8 *)

Abbreviation ndarray3 := (list (list (list Z))).

(** [np.zeros((h, w, c), dtype=np.uint8)] *)
Definition np_zeros (h w c : nat) : ndarray3 :=
  replicate h (replicate w (replicate c 0)).

(** Storing a float into a uint8 cell: the value is truncated toward zero and
    kept modulo 256 (the conversion is only defined by C for values that
    truncate into [0, 255]; the wrap-around is what x86-64 builds do). *)
Definition uint8_of_float (f : spec_float) : Z := Float64.trunc f mod 256.

(** [a[:, :, ch] = v]: broadcast the scalar [v] over channel [ch]. *)
Definition set_channel (ch : nat) (v : spec_float) (a : ndarray3) : ndarray3 :=
  (λ row : list (list Z), (λ px : list Z, <[ch := uint8_of_float v]> px) <$> row) <$> a.

Definition shape_is (h w c : nat) (a : ndarray3) : Prop :=
  length a = h ∧ Forall (λ row, length row = w ∧ Forall (λ px, length px = c) row) a.

(** [a[y, x, c]] *)
Definition pixel (a : ndarray3) (y x c : nat) : option Z :=
  row ← a !! y; px ← row !! x; px !! c.

(** ** Python sequences *)

(** [range(start, stop, step)] for a positive [step]. *)
Definition py_range (start stop step : nat) : list nat :=
  (λ i, start + i * step)%nat <$> seq 0 ((stop - start + (step - 1)) / step)%nat.

(** [l[i]] for a non-negative index. *)
Definition getitem_nat {A} (l : list A) (i : nat) : result A :=
  match l !! i with
  | Some x => Ok x
  | None => Err IndexError
  end.

(** [l[idx]] for a Python integer: a negative index counts from the end. *)
Definition py_getitem {A} (l : list A) (idx : Z) : result A :=
  let n := Z.of_nat (length l) in
  if decide (0 ≤ idx < n) then getitem_nat l (Z.to_nat idx)
  else if decide (- n ≤ idx < 0) then getitem_nat l (Z.to_nat (n + idx))
  else Err IndexError.

(** ** Frame renderer: [SamplesDataLoader.generate_rgb_from_samples] *)

Definition c255 : spec_float := Float64.of_int 255.

Definition generate_rgb_from_samples (sample_events : list spec_float)
  : result (list ndarray3) :=
  mapM (λ frame,
          let rgb_frame := np_zeros 256 256 3 in
          v0 ← getitem_nat sample_events frame;
          let rgb_frame := set_channel 0 (Float64.mul v0 c255) rgb_frame in
          v1 ← getitem_nat sample_events (frame + 1);
          let rgb_frame := set_channel 1 (Float64.mul v1 c255) rgb_frame in
          v2 ← getitem_nat sample_events (frame + 2);
          let rgb_frame := set_channel 2 (Float64.mul v2 c255) rgb_frame in
          mret rgb_frame)
       (py_range 0 ((length sample_events / 3) * 3) 3).

(** ** Python strings *)

Local Open Scope string_scope.

(** [s.endswith(suffix)]: some tail of [s] is [suffix]. *)
Fixpoint py_endswith (s suffix : string) : bool :=
  String.eqb s suffix
  || match s with
     | EmptyString => false
     | String _ s' => py_endswith s' suffix
     end.

(** [s.startswith(p)] *)
Definition py_startswith (s p : string) : bool := String.prefix p s.

(** [s.split(sep)] for a one-character separator: every occurrence of the
    separator ends a piece, so the result is never empty. *)
Fixpoint py_split (sep : ascii) (s : string) : list string :=
  match s with
  | EmptyString => [EmptyString]
  | String c s' =>
      if Ascii.eqb c sep then EmptyString :: py_split sep s'
      else match py_split sep s' with
           | w :: ws => String c w :: ws
           | [] => [String c EmptyString]
           end
  end.

(** [s[n:]] *)
Fixpoint py_slice_from (n : nat) (s : string) : string :=
  match n, s with
  | O, _ => s
  | S n', String _ s' => py_slice_from n' s'
  | S _, EmptyString => EmptyString
  end.

Fixpoint string_repeat (c : ascii) (n : nat) : string :=
  match n with
  | O => EmptyString
  | S n' => String c (string_repeat c n')
  end.

(** [f"{i:03}"]: decimal, padded on the left with zeros to at least 3 digits *)
Definition format_03 (i : nat) : string :=
  let digits := NilEmpty.string_of_uint (Nat.to_uint i) in
  string_repeat "0"%char (3 - String.length digits) +:+ digits.

(** [os.path.join(a, b)] (posixpath) *)
Definition os_path_join (a b : string) : string :=
  if py_startswith b "/" then b
  else if decide (a = "") then b
  else if py_endswith a "/" then a +:+ b
  else a +:+ "/" +:+ b.

(** [sorted(names)]: strings are ordered lexicographically by code point. *)
Definition py_sorted (names : list string) : list string :=
  merge_sort String.le names.

(** ** The file system and the collaborators' effects *)

(** One parsed value of a tabular file. *)
Inductive cell :=
  | CFloat (f : spec_float)
  | CInt (z : Z)
  | CStr (s : string).

(** What a file holds: a table as the tabular reader parses it (rows of
    cells), or an encoded image. *)
Inductive file_content :=
  | CsvFile (table : list (list cell))
  | PngFile (img : ndarray3).

(** The calls made to the collaborators, in program order. *)
Inductive io_event :=
  | IoListdir (path : string)
  | IoExists (path : string)
  | IoMakedirs (path : string)
  | IoReadCsv (path : string)
  | IoSaveImage (path : string)
  | IoCopy (src dst : string)
  | IoPrint (line : string).

(** The world: the regular files, the directories with the names each one
    lists (in the arbitrary order [os.listdir] reports them), and the trace
    of collaborator calls made so far.  Directories are keyed by their path
    without trailing slashes. *)
Record world := World {
  files : gmap string file_content;
  dirs : gmap string (list string);
  trace : list io_event
}.

(** A computation with effects: it may raise, and its effects on the world
    persist when it does. *)
Definition io (A : Type) : Type := world → result A * world.

#[global] Instance io_ret : MRet io := λ A a w, (Ok a, w).
#[global] Instance io_bind : MBind io := λ A B f m w,
  match m w with
  | (Ok a, w') => f a w'
  | (Err e, w') => (Err e, w')
  end.
#[global] Instance io_fmap : FMap io := λ A B f m w,
  match m w with
  | (Ok a, w') => (Ok (f a), w')
  | (Err e, w') => (Err e, w')
  end.

Definition lift {A} (r : result A) : io A := λ w, (r, w).
Definition raise {A} (e : exn) : io A := λ w, (Err e, w).
Definition get_world : io world := λ w, (Ok w, w).
Definition put_world (w : world) : io unit := λ _, (Ok tt, w).
Definition log (ev : io_event) : io unit :=
  w ← get_world; put_world (World (files w) (dirs w) (trace w ++ [ev])).

Fixpoint strip_trailing_slash (s : string) : string :=
  match s with
  | EmptyString => EmptyString
  | String c s' =>
      let r := strip_trailing_slash s' in
      if decide (r = "" ∧ c = "/"%char) then EmptyString else String c r
  end.

(** [os.listdir(path)] *)
Definition os_listdir (path : string) : io (list string) :=
  _ ← log (IoListdir path);
  w ← get_world;
  match dirs w !! strip_trailing_slash path with
  | Some names => mret names
  | None =>
      match files w !! path with
      | Some _ => raise NotADirectoryError
      | None => raise FileNotFoundError
      end
  end.

(** [os.path.exists(path)]: a path with a trailing slash names a directory. *)
Definition os_path_exists (path : string) : io bool :=
  _ ← log (IoExists path);
  w ← get_world;
  mret (bool_decide (is_Some (dirs w !! strip_trailing_slash path))
        || (negb (py_endswith path "/") && bool_decide (is_Some (files w !! path)))).

(** [os.makedirs(path)]: the directory is registered with an empty listing
    (the intermediate directories it creates on the way are not tracked). *)
Definition os_makedirs (path : string) : io unit :=
  _ ← log (IoMakedirs path);
  w ← get_world;
  let d := strip_trailing_slash path in
  if bool_decide (is_Some (dirs w !! d)) || bool_decide (is_Some (files w !! d))
  then raise FileExistsError
  else put_world (World (files w) (<[d := []]> (dirs w)) (trace w)).

(** The tabular reader: the table held by the file at [path]. *)
Definition read_csv (path : string) : io (list (list cell)) :=
  _ ← log (IoReadCsv path);
  w ← get_world;
  match files w !! path with
  | Some (CsvFile table) => mret table
  | Some (PngFile _) => raise ParserError
  | None => raise FileNotFoundError
  end.

(** [Image.fromarray(frame).save(path)] *)
Definition image_save (path : string) (frame : ndarray3) : io unit :=
  _ ← log (IoSaveImage path);
  w ← get_world;
  put_world (World (<[path := PngFile frame]> (files w)) (dirs w) (trace w)).

(** [shutil.copy(src, dst)] *)
Definition shutil_copy (src dst : string) : io unit :=
  _ ← log (IoCopy src dst);
  w ← get_world;
  match files w !! src with
  | Some c => put_world (World (<[dst := c]> (files w)) (dirs w) (trace w))
  | None => raise FileNotFoundError
  end.

(** [print(line)] *)
Definition print (line : string) : io unit := log (IoPrint line).

(** ** The event schema and NumPy structured arrays *)

Inductive scalar_type := float64 | int32.

Inductive scalar :=
  | VFloat64 (f : spec_float)
  | VInt32 (z : Z).

Record structured_array := StructuredArray {
  sa_dtype : list (string * scalar_type);
  sa_records : list (list scalar)
}.

(** [events.dtype.names] *)
Definition dtype_names (a : structured_array) : list string := fst <$> sa_dtype a.

(** A 32-bit two's-complement cell keeps the low 32 bits of what is stored. *)
Definition wrap_int32 (z : Z) : Z := (z + 2 ^ 31) mod 2 ^ 32 - 2 ^ 31.

Definition has_type (v : scalar) (ty : scalar_type) : Prop :=
  match v, ty with
  | VFloat64 _, float64 => True
  | VInt32 z, int32 => - 2 ^ 31 ≤ z < 2 ^ 31
  | _, _ => False
  end.

(** ** The dataset object *)

(** The output of the transform pipeline: [None] when the sample is rejected,
    else the flat sequence of values the frame renderer consumes. *)
Definition transformed := option (list spec_float).

(** A label table: its header row and its records. *)
Record recarray := RecArray {
  ra_columns : list cell;
  ra_records : list (list cell)
}.

Record SamplesDataLoader := Build_SamplesDataLoader {
  self_root_dir : string;
  self_dataset_type : string;
  self_samples : list (string * option string);
  self_transform : option (structured_array → result transformed)
}.

(** The module-level [root_dir]. *)
Definition root_dir : string := "/Users/jost/Downloads/SPADES".

(** ** Sample index builder: [SamplesDataLoader._load_samples] *)

Definition _load_samples (root dataset_type : string)
  : io (list (string * option string)) :=
  let samples : list (string * option string) := [] in
  let events_dir := os_path_join (os_path_join root dataset_type) "events" in
  if decide (dataset_type = "synthetic") then
    let labels_dir := os_path_join (os_path_join root dataset_type) "labels" in
    names ← os_listdir events_dir;
    mret (foldl (λ samples file_name,
                   if py_endswith file_name ".csv" then
                     let event_file := os_path_join events_dir file_name in
                     let label_file := os_path_join labels_dir file_name in
                     (samples ++ [(event_file, Some label_file)])%list
                   else samples)
                samples (py_sorted names))
  else if decide (dataset_type = "Real") then
    names ← os_listdir events_dir;
    mret (foldl (λ samples file_name,
                   if py_endswith file_name ".csv" then
                     let event_file := os_path_join events_dir file_name in
                     (samples ++ [(event_file, None)])%list
                   else samples)
                samples (py_sorted names))
  else mret samples.

(** [SamplesDataLoader.__init__] *)
Definition __init__ (root dataset_type : string)
    (transform : option (structured_array → result transformed))
  : io SamplesDataLoader :=
  samples ← _load_samples root dataset_type;
  mret (Build_SamplesDataLoader root dataset_type samples transform).

(** The array library's conversion of one parsed value into a field of the
    given type; [None] when the value cannot be converted. *)
Class ArrayLib := {
  float64_setitem : cell → option spec_float;
  int32_setitem : cell → option Z
}.

(** [assert cond] *)
Definition py_assert (cond : bool) : io unit :=
  if cond then mret tt else raise AssertionError.

Section Loader.
Context `{!ArrayLib}.

Definition convert (ty : scalar_type) (c : cell) : result scalar :=
  match ty with
  | float64 =>
      match float64_setitem c with
      | Some f => Ok (VFloat64 f)
      | None => Err ValueError
      end
  | int32 =>
      match int32_setitem c with
      | Some z => Ok (VInt32 (wrap_int32 z))
      | None => Err ValueError
      end
  end.

(** One tuple against the dtype: as many values as fields, each converted. *)
Fixpoint convert_tuple (dtype : list (string * scalar_type)) (row : list cell)
  : result (list scalar) :=
  match dtype, row with
  | [], [] => Ok []
  | (_, ty) :: dtype', c :: row' =>
      v ← convert ty c;
      vs ← convert_tuple dtype' row';
      mret (v :: vs)
  | _, _ => Err ValueError
  end.

(** [np.array([tuple(row) for row in rows], dtype=dtype)] *)
Definition np_array (rows : list (list cell)) (dtype : list (string * scalar_type))
  : result structured_array :=
  records ← mapM (convert_tuple dtype) rows;
  mret (StructuredArray dtype records).

(** [SamplesDataLoader._load_events] *)
Definition _load_events (self : SamplesDataLoader) (file_path : string)
  : io transformed :=
  let dtype := [("t", float64); ("x", int32); ("y", int32); ("p", int32)] in
  events_df ← read_csv file_path;
  events ← lift (np_array events_df dtype);
  _ ← py_assert (bool_decide (dtype_names events ≠ []));
  _ ← py_assert (bool_decide ("t" ∈ dtype_names events));
  _ ← py_assert (bool_decide ("x" ∈ dtype_names events));
  _ ← py_assert (bool_decide ("y" ∈ dtype_names events));
  _ ← py_assert (bool_decide ("p" ∈ dtype_names events));
  match self_transform self with
  | Some transform => lift (transform events)
  | None => raise TypeError
  end.

(** [SamplesDataLoader._load_labels] *)
Definition _load_labels (file_path : string) : io recarray :=
  labels ← read_csv file_path;
  match labels with
  | header :: rows => mret (RecArray header rows)
  | [] => raise EmptyDataError
  end.

(** [SamplesDataLoader.__getitem__] *)
Definition __getitem__ (self : SamplesDataLoader) (idx : Z)
  : io (transformed * option recarray) :=
  '(event_file, label_file) ← lift (py_getitem (self_samples self) idx);
  events ← _load_events self event_file;
  labels ← match label_file with
           | Some label_file => Some <$> _load_labels label_file
           | None => mret None
           end;
  mret (events, labels).

(** [SamplesDataLoader.save_sample] *)
Definition save_sample (self : SamplesDataLoader) (idx : Z) (file_path : string)
  : io unit :=
  sample ← lift (py_getitem (self_samples self) idx);
  last ← lift (py_getitem (py_split "/" (fst sample)) (-1));
  traj_name ← lift (py_getitem (py_split "." last) 0);
  let file_path := file_path +:+ "/" +:+ traj_name +:+ "/" in
  present ← os_path_exists file_path;
  _ ← (if negb present then os_makedirs file_path else mret tt);
  '(events, labels) ← __getitem__ self idx;
  match events with
  | None => print "Event with index f{idx} rejected while filtering."
  | Some events =>
      rgb_frames ← lift (generate_rgb_from_samples events);
      _ ← mapM (λ '(i, frame),
                  let number := format_03 i in
                  _ ← print number;
                  image_save (file_path +:+ "img" +:+ number +:+ "_"
                              +:+ py_slice_from 4 traj_name +:+ ".png") frame)
               (imap (λ i frame, (i, frame)) rgb_frames);
      let csv_file_path := root_dir +:+ "/synthetic/labels/" +:+ traj_name +:+ ".csv" in
      let csv_dest_path := file_path +:+ traj_name +:+ ".csv" in
      shutil_copy csv_file_path csv_dest_path
  end.
End Loader.

(** ** Auxiliary definitions for the statements below *)

(** The float literals [0.0], [0.5], [1.0] and [0.2]. *)
Definition float_0_0 : spec_float := S754_zero false.
Definition float_0_5 : spec_float := S754_finite false 4503599627370496 (-53).
Definition float_1_0 : spec_float := S754_finite false 4503599627370496 (-52).
Definition float_0_2 : spec_float := S754_finite false 7205759403792794 (-55).

(** The three channel values of the frame rendered from a run of three. *)
Definition rgb_pixel (v0 v1 v2 : spec_float) : list Z :=
  [uint8_of_float (Float64.mul v0 c255); uint8_of_float (Float64.mul v1 c255);
   uint8_of_float (Float64.mul v2 c255)].

(** The frame built from the [i]-th run of three values of [s]. *)
Definition frame_at (s : list spec_float) (i : nat) : ndarray3 :=
  let v c := default (S754_zero false) (s !! (i * 3 + c)%nat) in
  replicate 256 (replicate 256 (rgb_pixel (v 0%nat) (v 1%nat) (v 2%nat))).

(** The dtype of the event schema, as [_load_events] declares it. *)
Definition event_dtype : list (string * scalar_type) :=
  [("t", float64); ("x", int32); ("y", int32); ("p", int32)].

(** A row that the codec can convert: four cells, each acceptable for its
    field. *)
Definition coercible `{!ArrayLib} (row : list cell) : Prop :=
  ∃ t x y p, row = [t; x; y; p]
    ∧ is_Some (float64_setitem t) ∧ is_Some (int32_setitem x)
    ∧ is_Some (int32_setitem y) ∧ is_Some (int32_setitem p).

(** The record the codec builds from a row. *)
Definition decodes_to `{!ArrayLib} (row : list cell) (record : list scalar) : Prop :=
  ∃ t x y p ft zx zy zp, row = [t; x; y; p]
    ∧ float64_setitem t = Some ft ∧ int32_setitem x = Some zx
    ∧ int32_setitem y = Some zy ∧ int32_setitem p = Some zp
    ∧ record = [VFloat64 ft; VInt32 (wrap_int32 zx); VInt32 (wrap_int32 zy);
                VInt32 (wrap_int32 zp)].

(** The world after further collaborator calls have been recorded. *)
Definition logged (w : world) (evs : list io_event) : world :=
  World (files w) (dirs w) (trace w ++ evs).

(** What [_load_events] and [_load_labels] make of the file at a path. *)
Definition events_of `{!ArrayLib} (self : SamplesDataLoader)
    (fs : gmap string file_content) (path : string) : result transformed :=
  match fs !! path with
  | Some (CsvFile rows) =>
      match np_array rows event_dtype with
      | Ok arr =>
          match self_transform self with
          | Some transform => transform arr
          | None => Err TypeError
          end
      | Err e => Err e
      end
  | Some (PngFile _) => Err ParserError
  | None => Err FileNotFoundError
  end.

Definition labels_of (fs : gmap string file_content) (path : string)
  : result recarray :=
  match fs !! path with
  | Some (CsvFile (header :: rows)) => Ok (RecArray header rows)
  | Some (CsvFile []) => Err EmptyDataError
  | Some (PngFile _) => Err ParserError
  | None => Err FileNotFoundError
  end.

(** The directories the index builder derives from root and variant. *)
Definition events_dir_of (root dataset_type : string) : string :=
  os_path_join (os_path_join root dataset_type) "events".
Definition labels_dir_of (root dataset_type : string) : string :=
  os_path_join (os_path_join root dataset_type) "labels".

(** A name with the tabular extension. *)
Definition is_csv (f : string) : Prop := py_endswith f ".csv" = true.
#[global] Instance is_csv_dec (f : string) : Decision (is_csv f) := _.

(** The sample name [save_sample] derives from an event-source path: the
    last path component, up to its first dot. *)
Definition traj_name_of (event_file : string) : string :=
  default "" (head (py_split "." (default "" (last (py_split "/" event_file))))).

(** The image paths written by the collaborator calls of a trace, in order. *)
Definition saved_images (evs : list io_event) : list string :=
  omap (λ ev, match ev with IoSaveImage p => Some p | _ => None end) evs.

(** The calls that write a file: saving an image, copying a file. *)
Definition is_write (ev : io_event) : Prop :=
  match ev with
  | IoSaveImage _ | IoCopy _ _ => True
  | _ => False
  end.

(** A conversion that accepts the numeric cells and rejects text, used to
    run the loader on concrete inputs. *)
#[global] Instance numeric_cells : ArrayLib := {|
  float64_setitem c :=
    match c with
    | CFloat f => Some f
    | CInt z => Some (Float64.of_int z)
    | CStr _ => None
    end;
  int32_setitem c :=
    match c with
    | CFloat f => if Float64.is_finite f then Some (Float64.trunc f) else None
    | CInt z => Some z
    | CStr _ => None
    end
|}.

(** The output directory of a sample, and the files written into it. *)
Definition out_dir (file_path traj_name : string) : string :=
  file_path +:+ "/" +:+ traj_name +:+ "/".
Definition frame_path (dir traj_name : string) (i : nat) : string :=
  dir +:+ "img" +:+ format_03 i +:+ "_" +:+ py_slice_from 4 traj_name +:+ ".png".
Definition label_src (traj_name : string) : string :=
  root_dir +:+ "/synthetic/labels/" +:+ traj_name +:+ ".csv".
Definition label_dst (dir traj_name : string) : string :=
  dir +:+ traj_name +:+ ".csv".

(** The output directory exists already, or nothing is in the way of
    creating it. *)
Definition dir_ready (w : world) (dir : string) : Prop :=
  is_Some (dirs w !! strip_trailing_slash dir)
  ∨ files w !! strip_trailing_slash dir = None.

(** The directories once [dir] has been made sure to exist. *)
Definition dirs_with (w : world) (dir : string) : gmap string (list string) :=
  if decide (is_Some (dirs w !! strip_trailing_slash dir)) then dirs w
  else <[strip_trailing_slash dir := []]> (dirs w).

(** The files once the frames of [l] have been saved, and the calls made. *)
Definition write_frames (dir traj_name : string) (fs : gmap string file_content)
    (l : list (nat * ndarray3)) : gmap string file_content :=
  foldl (λ fs '(i, frame), <[frame_path dir traj_name i := PngFile frame]> fs) fs l.
Definition frame_events (dir traj_name : string) (l : list (nat * ndarray3))
  : list io_event :=
  l ≫= λ '(i, _), [IoPrint (format_03 i); IoSaveImage (frame_path dir traj_name i)].

(** The calls that make sure [dir] exists. *)
Definition prepare_events (w : world) (dir : string) : list io_event :=
  IoExists dir
  :: (if decide (is_Some (dirs w !! strip_trailing_slash dir)) then []
      else [IoMakedirs dir]).

Definition rejected_message : string :=
  "Event with index f{idx} rejected while filtering.".

(** [c in s] *)
Fixpoint contains_char (c : ascii) (s : string) : bool :=
  match s with
  | EmptyString => false
  | String x s' => Ascii.eqb x c || contains_char c s'
  end.

(** The last component of a path. *)
Definition basename (path : string) : string :=
  default "" (last (py_split "/" path)).

(** Follows the spec's words, "file name minus extension": the name without
    its last dot and what follows it. *)
Fixpoint minus_extension (s : string) : string :=
  match s with
  | EmptyString => EmptyString
  | String c s' =>
      if Ascii.eqb c "." && negb (contains_char "." s') then EmptyString
      else String c (minus_extension s')
  end.

(** A one-sample dataset over the variant [Real] and a world that holds its
    event file, used to run the loader. *)
Definition example_loader (transform : option (structured_array → result transformed))
  : SamplesDataLoader :=
  Build_SamplesDataLoader "r" "Real" [("r/Real/events/traj001.csv", None)] transform.
Definition example_world : world :=
  World {[ "r/Real/events/traj001.csv" := CsvFile [[CInt 0; CInt 1; CInt 2; CInt 1]] ]} ∅ [].

(** ** Auxiliary definitions for the further properties *)

(** The calls that read a tabular file, and the calls that create a
    directory. *)
Definition is_read (ev : io_event) : Prop :=
  match ev with
  | IoReadCsv _ => True
  | _ => False
  end.
Definition is_makedirs (ev : io_event) : Prop :=
  match ev with
  | IoMakedirs _ => True
  | _ => False
  end.

(** Reading a frame number back from its text. *)
Definition parse_number (s : string) : option nat :=
  Nat.of_uint <$> NilEmpty.uint_of_string s.

(** A transform that keeps the timestamp of every event. *)
Definition timestamps (events : structured_array) : result transformed :=
  Ok (Some (omap (λ record, match record with
                            | VFloat64 t :: _ => Some t
                            | _ => None
                            end) (sa_records events))).

(** A scenario of one synthetic sample: four event rows, a label table of a
    header and two rows, and an events directory that also lists a file
    without the tabular extension. *)
Definition scenario_events : list (list cell) :=
  [[CFloat float_0_0; CInt 1; CInt 2; CInt 1];
   [CFloat float_0_2; CInt 3; CInt 4; CInt 0];
   [CFloat float_0_5; CInt 5; CInt 6; CInt 1];
   [CFloat float_1_0; CInt 7; CInt 8; CInt 0]].
Definition scenario_labels : list (list cell) :=
  [[CStr "frame"; CStr "pose"]; [CInt 0; CFloat float_0_5]; [CInt 1; CFloat float_1_0]].
Definition scenario_world : world :=
  World {[ "r/synthetic/events/traj001.csv" := CsvFile scenario_events;
           "r/synthetic/labels/traj001.csv" := CsvFile scenario_labels ]}
        {[ "r/synthetic/events" := ["notes.txt"; "traj001.csv"] ]} [].
Definition scenario_loader : SamplesDataLoader :=
  Build_SamplesDataLoader "r" "synthetic"
    [("r/synthetic/events/traj001.csv", Some "r/synthetic/labels/traj001.csv")]
    (Some timestamps).

(** The scenario without its label file. *)
Definition unlabelled_world : world :=
  World {[ "r/synthetic/events/traj001.csv" := CsvFile scenario_events ]}
        {[ "r/synthetic/events" := ["notes.txt"; "traj001.csv"] ]} [].

(** The scenario with the label table also under the fixed root that
    [save_sample] copies from, and the scenario with a regular file where the
    output directory [out/traj001] should be. *)
Definition materialize_world : world :=
  World (<[ root_dir +:+ "/synthetic/labels/traj001.csv" := CsvFile scenario_labels ]>
           (files scenario_world))
        (dirs scenario_world) [].
Definition blocked_world : world :=
  World (<[ "out/traj001" := CsvFile [] ]> (files scenario_world))
        (dirs scenario_world) [].

(** * Properties *)

(** ** The Python operations on concrete inputs *)

Example py_split_examples :
  py_split "/" "r/Real/events/traj001.csv" = ["r"; "Real"; "events"; "traj001.csv"]
  ∧ py_split "." "traj001.csv" = ["traj001"; "csv"]
  ∧ py_split "." "traj001.v2.csv" = ["traj001"; "v2"; "csv"]
  ∧ py_split "/" "a//b" = ["a"; ""; "b"]
  ∧ py_split "." "" = [""].
Proof. repeat split. Qed.

Example py_getitem_examples :
  py_getitem ["a"; "b"; "c"] 0 = Ok "a"
  ∧ py_getitem ["a"; "b"; "c"] (-1) = Ok "c"
  ∧ py_getitem ["a"; "b"; "c"] (-3) = Ok "a"
  ∧ py_getitem ["a"; "b"; "c"] 3 = Err IndexError
  ∧ py_getitem ["a"; "b"; "c"] (-4) = Err IndexError.
Proof. repeat split. Qed.

Example py_range_examples :
  py_range 0 6 3 = [0; 3]%nat ∧ py_range 0 0 3 = [] ∧ py_range 0 7 3 = [0; 3; 6]%nat.
Proof. repeat split. Qed.

Example format_03_examples :
  format_03 0 = "000" ∧ format_03 7 = "007" ∧ format_03 42 = "042"
  ∧ format_03 999 = "999" ∧ format_03 1000 = "1000".
Proof. repeat split. Qed.

Example os_path_join_examples :
  os_path_join (os_path_join "root" "synthetic") "events" = "root/synthetic/events"
  ∧ os_path_join "root/" "x" = "root/x"
  ∧ os_path_join "" "x" = "x"
  ∧ os_path_join "root" "/x" = "/x".
Proof. repeat split. Qed.

Example py_endswith_examples :
  py_endswith "a.csv" ".csv" = true ∧ py_endswith ".csv" ".csv" = true
  ∧ py_endswith "a.csv.bak" ".csv" = false ∧ py_endswith "csv" ".csv" = false.
Proof. repeat split. Qed.

Example py_sorted_example :
  py_sorted ["b.csv"; "a10.csv"; "B.csv"; "a2.csv"] = ["B.csv"; "a10.csv"; "a2.csv"; "b.csv"].
Proof. reflexivity. Qed.

Example name_examples :
  traj_name_of "r/Real/events/traj001.csv" = "traj001"
  ∧ traj_name_of "r/Real/events/traj001.v2.csv" = "traj001"
  ∧ minus_extension (basename "r/Real/events/traj001.csv") = "traj001"
  ∧ minus_extension (basename "r/Real/events/traj001.v2.csv") = "traj001.v2".
Proof. repeat split. Qed.

Example float_scaling_examples :
  uint8_of_float (Float64.mul float_0_0 c255) = 0%Z
  ∧ uint8_of_float (Float64.mul float_0_5 c255) = 127%Z
  ∧ uint8_of_float (Float64.mul float_1_0 c255) = 255%Z
  ∧ uint8_of_float (Float64.mul float_0_2 c255) = 51%Z.
Proof. repeat split. Qed.

(** ** Rounding of binary64 products *)

Local Open Scope Z_scope.

Lemma digits2_pos_bounds (p : positive) :
  2 ^ (Z.pos (digits2_pos p) - 1) ≤ Z.pos p < 2 ^ Z.pos (digits2_pos p).
Proof.
  induction p as [p IH|p IH|]; simpl digits2_pos.
  - rewrite Pos2Z.inj_succ.
    replace (Z.succ (Z.pos (digits2_pos p)) - 1) with (Z.succ (Z.pos (digits2_pos p) - 1)) by lia.
    rewrite !Z.pow_succ_r by lia. lia.
  - rewrite Pos2Z.inj_succ.
    replace (Z.succ (Z.pos (digits2_pos p)) - 1) with (Z.succ (Z.pos (digits2_pos p) - 1)) by lia.
    rewrite !Z.pow_succ_r by lia. lia.
  - simpl. lia.
Qed.

Lemma digits2_pos_le (p : positive) (k : Z) :
  Z.pos p < 2 ^ k → Z.pos (digits2_pos p) ≤ k.
Proof.
  intros Hp. destruct (digits2_pos_bounds p) as [Hlo _].
  destruct (Z.le_gt_cases (Z.pos (digits2_pos p)) k) as [|Hgt]; [done|].
  assert (0 ≤ k ∨ k < 0) as [Hk|Hk] by lia.
  - assert (2 ^ k ≤ 2 ^ (Z.pos (digits2_pos p) - 1)) by (apply Z.pow_le_mono_r; lia). lia.
  - rewrite Z.pow_neg_r in Hp by done. lia.
Qed.

Lemma shr_1_m (mrs : shr_record) :
  0 ≤ shr_m mrs → shr_m (shr_1 mrs) = shr_m mrs / 2.
Proof.
  destruct mrs as [m r s]; simpl. intros Hm.
  destruct m as [|[p|p|]|p]; cbn [shr_m] in *; try lia; try done.
  - apply Z.div_unique with 1; lia.
  - apply Z.div_unique with 0; lia.
Qed.

Lemma shr_iter_m (p : positive) (mrs : shr_record) :
  0 ≤ shr_m mrs → shr_m (SpecFloat.iter_pos shr_1 p mrs) = shr_m mrs / 2 ^ Z.pos p.
Proof.
  revert mrs. induction p as [p IH|p IH|]; intros mrs Hm; cbn [SpecFloat.iter_pos].
  - assert (0 ≤ shr_m (shr_1 mrs)) as H1.
    { rewrite shr_1_m by done. apply Z.div_pos; lia. }
    assert (0 ≤ shr_m (SpecFloat.iter_pos shr_1 p (shr_1 mrs))) as H2.
    { rewrite IH by done. apply Z.div_pos; lia. }
    rewrite IH, IH, shr_1_m by done.
    rewrite !Z.div_div by lia. f_equal.
    replace (Z.pos p~1) with (1 + Z.pos p + Z.pos p) by lia.
    rewrite !Z.pow_add_r by lia. change (2 ^ 1) with 2. lia.
  - assert (0 ≤ shr_m (SpecFloat.iter_pos shr_1 p mrs)) as H2.
    { rewrite IH by done. apply Z.div_pos; lia. }
    rewrite IH, IH by done.
    rewrite !Z.div_div by lia. f_equal.
    replace (Z.pos p~0) with (Z.pos p + Z.pos p) by lia.
    rewrite Z.pow_add_r by lia. done.
  - rewrite shr_1_m by done. done.
Qed.

Lemma round_nearest_even_bounds (m : Z) (l : location) :
  m ≤ round_nearest_even m l ≤ m + 1.
Proof. destruct l as [|[]]; simpl; try lia. destruct (Z.even m); lia. Qed.

Lemma pow2_split (a b : Z) : 0 ≤ a → 0 ≤ b → 2 ^ (a + b) = 2 ^ a * 2 ^ b.
Proof. intros. apply Z.pow_add_r; lia. Qed.

Lemma fexp_le (d : Z) : d ≤ 8 → fexp 53 1024 d ≤ -45.
Proof. unfold fexp, emin. lia. Qed.

Lemma shr_fexp_first (M : positive) (E : Z) :
  E ≤ -45 → Z.pos M ≤ 255 * 2 ^ (- E) →
  ∃ mrs e', shr_fexp 53 1024 (Z.pos M) E loc_Exact = (mrs, e') ∧ e' ≤ -45 ∧
    0 ≤ round_nearest_even (shr_m mrs) (loc_of_shr_record mrs) < 2 ^ (8 - e').
Proof.
  intros HE HM.
  assert (0 < 2 ^ (- E)) as Hpos by (apply Z.pow_pos_nonneg; lia).
  assert (Z.pos M < 2 ^ (8 - E)) as HM'.
  { replace (8 - E) with (8 + - E) by lia. rewrite pow2_split by lia.
    change (2 ^ 8) with 256. lia. }
  assert (Z.pos (digits2_pos M) + E ≤ 8) as Hd.
  { apply digits2_pos_le in HM'. lia. }
  apply fexp_le in Hd.
  unfold shr_fexp, shr. cbn [Zdigits2 shr_record_of_loc].
  destruct (fexp 53 1024 (Z.pos (digits2_pos M) + E) - E) as [|p|p] eqn:Hn.
  - eexists _, _. split; [done|]. split; [done|].
    cbn [shr_m loc_of_shr_record round_nearest_even]. split; [lia|exact HM'].
  - eexists _, _. split; [done|]. split; [lia|].
    set (mrs := SpecFloat.iter_pos _ _ _).
    assert (shr_m mrs = Z.pos M / 2 ^ Z.pos p) as Hm.
    { unfold mrs. rewrite shr_iter_m; cbn; [done|lia]. }
    pose proof (round_nearest_even_bounds (shr_m mrs) (loc_of_shr_record mrs)) as Hr.
    set (e' := E + Z.pos p) in *.
    assert (0 < 2 ^ Z.pos p) as Hpp by (apply Z.pow_pos_nonneg; lia).
    assert (0 ≤ Z.pos M / 2 ^ Z.pos p) by (apply Z.div_pos; lia).
    assert (2 ≤ 2 ^ (- e')) as H2.
    { change 2 with (2 ^ 1) at 1. apply Z.pow_le_mono_r; lia. }
    assert (Z.pos M / 2 ^ Z.pos p ≤ 255 * 2 ^ (- e')) as Hq.
    { apply Z.div_le_upper_bound; [done|].
      replace (- E) with (Z.pos p + - e') in HM by lia.
      rewrite pow2_split in HM by lia. lia. }
    replace (8 - e') with (8 + - e') by lia. rewrite pow2_split by lia.
    change (2 ^ 8) with 256. lia.
  - eexists _, _. split; [done|]. split; [done|].
    cbn [shr_m loc_of_shr_record round_nearest_even]. split; [lia|exact HM'].
Qed.

Lemma shr_fexp_second (m1 e' : Z) :
  e' ≤ -45 → 0 ≤ m1 < 2 ^ (8 - e') →
  ∃ mrs e'', shr_fexp 53 1024 m1 e' loc_Exact = (mrs, e'') ∧ e'' ≤ -45 ∧
    0 ≤ shr_m mrs ∧ shr_m mrs / 2 ^ (- e'') ≤ 255.
Proof.
  intros He [Hm0 Hm1].
  assert (0 < 2 ^ (- e')) as Hpos by (apply Z.pow_pos_nonneg; lia).
  assert (m1 / 2 ^ (- e') ≤ 255) as Hfl.
  { apply Z.lt_succ_r, Z.div_lt_upper_bound; [done|].
    replace (8 - e') with (- e' + 8) in Hm1 by lia.
    rewrite pow2_split in Hm1 by lia. change (2 ^ 8) with 256 in Hm1. lia. }
  assert (fexp 53 1024 (Zdigits2 m1 + e') ≤ -45) as Hd.
  { destruct m1 as [|q|q]; [| |lia].
    - cbn [Zdigits2]. unfold fexp, emin. lia.
    - apply fexp_le. cbn [Zdigits2]. apply digits2_pos_le in Hm1. lia. }
  unfold shr_fexp, shr. cbn [shr_record_of_loc].
  destruct (fexp 53 1024 (Zdigits2 m1 + e') - e') as [|p|p] eqn:Hn.
  - eexists _, _. split; [done|]. cbn [shr_m]. auto.
  - eexists _, _. split; [done|]. split; [lia|].
    assert (0 < 2 ^ Z.pos p) as Hpp by (apply Z.pow_pos_nonneg; lia).
    rewrite shr_iter_m by (cbn; lia). cbn [shr_m]. split; [apply Z.div_pos; lia|].
    rewrite Z.div_div by (try apply Z.pow_pos_nonneg; lia).
    rewrite <- pow2_split by lia.
    replace (Z.pos p + - (e' + Z.pos p)) with (- e') by lia. done.
  - eexists _, _. split; [done|]. cbn [shr_m]. auto.
Qed.

Lemma binary_round_aux_255 (M : positive) (E : Z) :
  E ≤ -45 → Z.pos M ≤ 255 * 2 ^ (- E) →
  let r := binary_round_aux 53 1024 false (Z.pos M) E loc_Exact in
  r = S754_zero false ∨
  ∃ m e, r = S754_finite false m e ∧ e ≤ -45 ∧ Z.pos m / 2 ^ (- e) ≤ 255.
Proof.
  intros HE HM. unfold binary_round_aux.
  destruct (shr_fexp_first M E HE HM) as (mrs & e' & -> & He' & Hr).
  destruct (shr_fexp_second _ e' He' Hr) as (mrs' & e'' & -> & He'' & Hm0 & Hm).
  cbn zeta. destruct (shr_m mrs') as [|m|m] eqn:Hs; [by left| |lia].
  right. exists m, e''.
  destruct (Z.leb_spec e'' (1024 - 53)); [done|lia].
Qed.

Lemma c255_eq : c255 = S754_finite false 8972014882652160 (-45).
Proof. reflexivity. Qed.

Lemma in_unit_finite (m : positive) (e : Z) (s : bool) :
  Float64.in_unit (S754_finite s m e) → s = false ∧ e ≤ 0 ∧ Z.pos m ≤ 2 ^ (- e).
Proof.
  intros (_ & H0 & H1). unfold Float64.to_Q in *.
  assert (s = false) as ->.
  { destruct s; [|done]. exfalso. destruct e as [|p|p]; cbn [cond_Zopp] in H0.
    - unfold Qle in H0. simpl in H0. lia.
    - unfold Qle in H0. cbn [Qnum Qden inject_Z] in H0.
      assert (0 < 2 ^ Z.pos p) by (apply Z.pow_pos_nonneg; lia). nia.
    - unfold Qle in H0. simpl in H0. lia. }
  split; [done|]. cbn [cond_Zopp] in H1.
  destruct e as [|p|p].
  - unfold Qle in H1. simpl in H1. simpl. lia.
  - unfold Qle in H1. cbn [Qnum Qden inject_Z] in H1.
    assert (2 ≤ 2 ^ Z.pos p).
    { change 2 with (2 ^ 1) at 1. apply Z.pow_le_mono_r; lia. } nia.
  - unfold Qle in H1. cbn [Qnum Qden] in H1. rewrite Pos2Z.inj_pow in H1.
    split; [lia|]. change (- Z.neg p) with (Z.pos p). lia.
Qed.

Lemma scale_finite (m : positive) (e : Z) :
  e ≤ -45 → Z.pos m / 2 ^ (- e) ≤ 255 →
  uint8_of_float (S754_finite false m e) = Qfloor (Float64.to_Q (S754_finite false m e))
  ∧ 0 ≤ uint8_of_float (S754_finite false m e) ≤ 255.
Proof.
  intros He Hm. destruct e as [|p|p]; [lia..|].
  unfold uint8_of_float, Float64.trunc, Float64.to_Q. cbn [cond_Zopp Qfloor].
  rewrite Pos2Z.inj_pow. change (Z.shiftl (Z.pos m) (Z.neg p)) with (Z.shiftr (Z.pos m) (Z.pos p)).
  rewrite Z.shiftr_div_pow2 by lia.
  change (- Z.neg p) with (Z.pos p) in Hm.
  assert (0 ≤ Z.pos m / 2 ^ Z.pos p).
  { apply Z.div_pos; [lia|]. apply Z.pow_pos_nonneg; lia. }
  rewrite Z.mod_small by lia. lia.
Qed.

Lemma scale_zero (s : bool) :
  uint8_of_float (S754_zero s) = Qfloor (Float64.to_Q (S754_zero s))
  ∧ 0 ≤ uint8_of_float (S754_zero s) ≤ 255.
Proof. change (0 = 0 ∧ 0 ≤ 0 ≤ 255). lia. Qed.

Lemma scale_unit (v : spec_float) :
  Float64.in_unit v →
  uint8_of_float (Float64.mul v c255) = Qfloor (Float64.to_Q (Float64.mul v c255))
  ∧ 0 ≤ uint8_of_float (Float64.mul v c255) ≤ 255.
Proof.
  intros Hv. destruct v as [s|s| |s m e].
  - rewrite c255_eq. apply scale_zero.
  - by destruct Hv as [? _].
  - by destruct Hv as [? _].
  - apply in_unit_finite in Hv as (-> & He & Hm).
    rewrite c255_eq. unfold Float64.mul. cbn [SFmul xorb].
    destruct (binary_round_aux_255 (m * 8972014882652160) (e + -45)) as [Hr|(m' & e' & Hr & He' & Hm')].
    + lia.
    + rewrite Pos2Z.inj_mul. replace (- (e + -45)) with (- e + 45) by lia.
      rewrite pow2_split by lia. change (2 ^ 45) with 35184372088832. lia.
    + unfold Float64.prec, Float64.emax. rewrite Hr. apply scale_zero.
    + unfold Float64.prec, Float64.emax. rewrite Hr. by apply scale_finite.
Qed.


(** ** The frame renderer *)

Lemma mapM_result_Ok {A B} (f : A → result B) (l : list A) (k : list B) :
  Forall2 (λ x y, f x = Ok y) l k → mapM f l = Ok k.
Proof.
  induction 1 as [|x y l k Hxy _ IH]; [done|].
  cbn [mapM]. rewrite Hxy. cbn. rewrite IH. done.
Qed.

Lemma py_range_step3 (k : nat) :
  py_range 0 (k * 3) 3 = (λ i, i * 3)%nat <$> seq 0 k.
Proof.
  unfold py_range. replace ((k * 3 - 0 + (3 - 1)) / 3)%nat with k; [done|].
  apply Nat.div_unique with 2%nat; lia.
Qed.

Lemma render_replicate (a b c : spec_float) :
  set_channel 2 c (set_channel 1 b (set_channel 0 a (np_zeros 256 256 3)))
  = replicate 256 (replicate 256 [uint8_of_float a; uint8_of_float b; uint8_of_float c]).
Proof. unfold set_channel, np_zeros. rewrite !fmap_replicate. reflexivity. Qed.

Lemma getitem_nat_Ok {A} (l : list A) (i : nat) (x : A) :
  l !! i = Some x → getitem_nat l i = Ok x.
Proof. unfold getitem_nat. by intros ->. Qed.

Lemma generate_rgb_frames (s : list spec_float) (k : nat) (frames : list ndarray3) :
  (length s / 3)%nat = k →
  Forall2 (λ i fr, ∃ v0 v1 v2,
             s !! (i * 3)%nat = Some v0 ∧ s !! (i * 3 + 1)%nat = Some v1 ∧
             s !! (i * 3 + 2)%nat = Some v2 ∧
             fr = replicate 256 (replicate 256 (rgb_pixel v0 v1 v2))) (seq 0 k) frames →
  generate_rgb_from_samples s = Ok frames.
Proof.
  intros Hk HF. unfold generate_rgb_from_samples. rewrite Hk, py_range_step3.
  apply mapM_result_Ok, Forall2_fmap_l.
  eapply Forall2_impl; [exact HF|].
  intros i fr (v0 & v1 & v2 & H0 & H1 & H2 & ->). unfold compose. cbn beta.
  rewrite (getitem_nat_Ok _ _ _ H0). cbn [mbind result_bind].
  rewrite (getitem_nat_Ok _ _ _ H1). cbn [mbind result_bind].
  rewrite (getitem_nat_Ok _ _ _ H2). cbn [mbind result_bind mret result_ret].
  by rewrite render_replicate.
Qed.

Lemma generate_rgb_frame_at (s : list spec_float) (k r : nat) :
  length s = (3 * k + r)%nat → (r < 3)%nat →
  generate_rgb_from_samples s = Ok (frame_at s <$> seq 0 k).
Proof.
  intros Hlen Hr. apply (generate_rgb_frames s k).
  { rewrite Hlen. symmetry. apply Nat.div_unique with r; lia. }
  apply Forall2_fmap_r, Forall_Forall2_diag, Forall_forall.
  intros i Hi%elem_of_seq.
  destruct (lookup_lt_is_Some_2 s (i * 3)) as [v0 H0]; [lia|].
  destruct (lookup_lt_is_Some_2 s (i * 3 + 1)) as [v1 H1]; [lia|].
  destruct (lookup_lt_is_Some_2 s (i * 3 + 2)) as [v2 H2]; [lia|].
  exists v0, v1, v2. repeat split; try done.
  unfold frame_at. rewrite Nat.add_0_r, H0, H1, H2. done.
Qed.

Lemma float_literals :
  (Float64.to_Q float_0_5 == 1 # 2)%Q ∧ (Float64.to_Q float_1_0 == 1)%Q
  ∧ float_0_2 = SFdiv 53 1024 (Float64.of_int 1) (Float64.of_int 5).
Proof. repeat split. Qed.

Lemma frame_at_shape (s : list spec_float) (i : nat) : shape_is 256 256 3 (frame_at s i).
Proof.
  unfold frame_at, shape_is. split; [by rewrite length_replicate|].
  apply Forall_replicate. split; [by rewrite length_replicate|].
  by apply Forall_replicate.
Qed.

Lemma frame_at_pixel (s : list spec_float) (i c y x : nat) (v : spec_float) :
  (c < 3)%nat → (y < 256)%nat → (x < 256)%nat → s !! (3 * i + c)%nat = Some v →
  pixel (frame_at s i) y x c = Some (uint8_of_float (Float64.mul v c255)).
Proof.
  intros Hc Hy Hx Hv. unfold pixel, frame_at.
  rewrite lookup_replicate_2 by done. cbn [mbind option_bind].
  rewrite lookup_replicate_2 by done. cbn [mbind option_bind].
  replace (3 * i)%nat with (i * 3)%nat in Hv by lia.
  destruct c as [|[|[|c]]]; [..|lia]; rewrite Hv; done.
Qed.

Lemma uint8_of_float_range (f : spec_float) : 0 ≤ uint8_of_float f ≤ 255.
Proof.
  unfold uint8_of_float. pose proof (Z.mod_pos_bound (Float64.trunc f) 256 eq_refl). lia.
Qed.

Lemma frame_at_uint8 (s : list spec_float) (i y x c : nat) (z : Z) :
  pixel (frame_at s i) y x c = Some z → 0 ≤ z ≤ 255.
Proof.
  unfold pixel, frame_at. intros Hpx.
  destruct (replicate 256 _ !! y) as [row|] eqn:Hrow; [|done].
  apply lookup_replicate in Hrow as [-> _]. cbn [mbind option_bind] in Hpx.
  destruct (replicate 256 _ !! x) as [px|] eqn:Hcol; [|done].
  apply lookup_replicate in Hcol as [-> _]. cbn [mbind option_bind] in Hpx.
  unfold rgb_pixel in Hpx.
  destruct c as [|[|[|c]]]; [..|done]; injection Hpx as <-; apply uint8_of_float_range.
Qed.

Lemma generate_rgb_take (s : list spec_float) (k r : nat) :
  length s = (3 * k + r)%nat → (r < 3)%nat →
  generate_rgb_from_samples (take (3 * k) s) = generate_rgb_from_samples s.
Proof.
  intros Hlen Hr.
  rewrite (generate_rgb_frame_at s k r), (generate_rgb_frame_at (take (3 * k) s) k 0);
    [|rewrite length_take; lia|lia|done..].
  f_equal. apply list_fmap_ext. intros j i Hi%lookup_seq.
  unfold frame_at. rewrite !lookup_take_lt by lia. done.
Qed.

(** C1: a stream of length [3k+r] with [r < 3] renders to exactly [k]
    frames, and to the same frames as its first [3k] values (the trailing
    [r] values are dropped); each frame is 256 x 256 x 3 with every entry in
    [0, 255]; value number
    [3i+c] of the stream fills channel [c] of frame [i] with the uint8
    conversion of its binary64 product with 255, which for a value in [0,1]
    is the floor of that product and lies in [0,255].  The scalars
    [0.0, 0.5, 1.0, 0.2] give one frame with channels [0, 127, 255]. *)
Theorem C1_frame_grouping (s : list spec_float) (k r : nat) :
  length s = (3 * k + r)%nat → (r < 3)%nat →
  ∃ frames,
    generate_rgb_from_samples s = Ok frames
    ∧ length frames = k
    ∧ generate_rgb_from_samples (take (3 * k) s) = Ok frames
    ∧ (∀ i fr, frames !! i = Some fr →
         shape_is 256 256 3 fr
         ∧ (∀ y x c z, pixel fr y x c = Some z → 0 ≤ z ≤ 255)
         ∧ ∀ c v, (c < 3)%nat → s !! (3 * i + c)%nat = Some v →
             (∀ y x, (y < 256)%nat → (x < 256)%nat →
                pixel fr y x c = Some (uint8_of_float (Float64.mul v c255)))
             ∧ (Float64.in_unit v →
                uint8_of_float (Float64.mul v c255)
                  = Qfloor (Float64.to_Q (Float64.mul v c255))
                ∧ 0 ≤ uint8_of_float (Float64.mul v c255) ≤ 255))
    ∧ generate_rgb_from_samples [float_0_0; float_0_5; float_1_0; float_0_2]
      = Ok [replicate 256 (replicate 256 [0; 127; 255])].
Proof.
  intros Hlen Hr. exists (frame_at s <$> seq 0 k).
  split; [by apply generate_rgb_frame_at with r|].
  split; [by rewrite length_fmap, length_seq|].
  split; [rewrite (generate_rgb_take s k r) by done; by apply generate_rgb_frame_at with r|].
  split.
  - intros i fr Hfr. rewrite list_lookup_fmap in Hfr.
    destruct (seq 0 k !! i) as [j|] eqn:Hj; [|done].
    apply lookup_seq in Hj as [-> _]. injection Hfr as <-.
    split; [apply frame_at_shape|]. split; [apply frame_at_uint8|].
    intros c v Hc Hv. split.
    + intros y x Hy Hx. by apply frame_at_pixel.
    + apply scale_unit.
  - vm_compute. reflexivity.
Qed.

Lemma C1_frame_grouping_witness :
  ∃ frames, generate_rgb_from_samples [float_0_0; float_0_5; float_1_0; float_0_2] = Ok frames
            ∧ length frames = 1%nat.
Proof.
  destruct (C1_frame_grouping [float_0_0; float_0_5; float_1_0; float_0_2] 1 1)
    as (frames & H1 & H2 & _); [reflexivity|lia|].
  exists frames. split; [exact H1|exact H2].
Defined.

(** ** The effect monad *)

Local Open Scope string_scope.

Ltac io_simpl :=
  cbv [mbind io_bind mret io_ret fmap io_fmap get_world put_world log raise lift
       print py_assert].

Lemma os_listdir_Some (path : string) (w : world) (names : list string) :
  dirs w !! strip_trailing_slash path = Some names →
  os_listdir path w
  = (Ok names, World (files w) (dirs w) (trace w ++ [IoListdir path])).
Proof. intros H. unfold os_listdir. io_simpl. cbn [dirs files trace]. by rewrite H. Qed.

Lemma os_listdir_missing (path : string) (w : world) :
  dirs w !! strip_trailing_slash path = None → files w !! path = None →
  os_listdir path w
  = (Err FileNotFoundError, World (files w) (dirs w) (trace w ++ [IoListdir path])).
Proof.
  intros H1 H2. unfold os_listdir. io_simpl. cbn [dirs files trace]. by rewrite H1, H2.
Qed.

(** ** The sample index builder *)

Lemma index_loop {A} (g : string → A) (acc : list A) (l : list string) :
  foldl (λ samples file_name,
           if py_endswith file_name ".csv" then (samples ++ [g file_name])%list
           else samples) acc l
  = (acc ++ (g <$> filter is_csv l))%list.
Proof.
  revert acc. induction l as [|f l IH]; intros acc; cbn [foldl].
  - by rewrite app_nil_r.
  - rewrite IH, filter_cons. destruct (decide (is_csv f)) as [Hf|Hf]; unfold is_csv in Hf.
    + rewrite Hf. by rewrite <- app_assoc.
    + apply not_true_is_false in Hf. by rewrite Hf.
Qed.

Lemma StronglySorted_filter {A} (R : relation A) (P : A → Prop)
    `{!∀ x, Decision (P x)} (l : list A) :
  StronglySorted R l → StronglySorted R (filter P l).
Proof.
  induction 1 as [|x l Hl IH Hx]; [constructor|].
  rewrite filter_cons. destruct (decide (P x)); [|done].
  constructor; [done|].
  apply Forall_forall. intros y [_ Hy]%list_elem_of_filter.
  by eapply Forall_forall in Hx.
Qed.

Lemma py_sorted_csv_sorted (names : list string) :
  StronglySorted String.le (filter is_csv (py_sorted names)).
Proof. apply StronglySorted_filter, StronglySorted_merge_sort; apply _. Qed.

Lemma py_sorted_csv_perm (names : list string) :
  filter is_csv (py_sorted names)
  ≡ₚ filter is_csv names.
Proof. unfold py_sorted. by rewrite merge_sort_Permutation. Qed.

Lemma _load_samples_synthetic (root : string) (w : world) :
  _load_samples root "synthetic" w
  = match os_listdir (events_dir_of root "synthetic") w with
    | (Ok names, w') =>
        (Ok ((λ f, (os_path_join (events_dir_of root "synthetic") f,
                    Some (os_path_join (labels_dir_of root "synthetic") f)))
               <$> filter is_csv (py_sorted names)), w')
    | (Err e, w') => (Err e, w')
    end.
Proof.
  unfold _load_samples. rewrite decide_True by done.
  cbv [mbind io_bind mret io_ret]. fold (events_dir_of root "synthetic").
  fold (labels_dir_of root "synthetic").
  destruct (os_listdir _ w) as [[names|e] w']; [|done].
  by rewrite index_loop.
Qed.

Lemma _load_samples_Real (root : string) (w : world) :
  _load_samples root "Real" w
  = match os_listdir (events_dir_of root "Real") w with
    | (Ok names, w') =>
        (Ok ((λ f, (os_path_join (events_dir_of root "Real") f, None))
               <$> filter is_csv (py_sorted names)), w')
    | (Err e, w') => (Err e, w')
    end.
Proof.
  unfold _load_samples. rewrite decide_False by done. rewrite decide_True by done.
  cbv [mbind io_bind mret io_ret]. fold (events_dir_of root "Real").
  destruct (os_listdir _ w) as [[names|e] w']; [|done].
  by rewrite index_loop.
Qed.

Lemma _load_samples_other (root dataset_type : string) (w : world) :
  dataset_type ≠ "synthetic" → dataset_type ≠ "Real" →
  _load_samples root dataset_type w = (Ok [], w).
Proof.
  intros H1 H2. unfold _load_samples. by rewrite !decide_False by done.
Qed.

(** ** Paths *)

Lemma string_app_cons (c : ascii) (a b : string) :
  String c a +:+ b = String c (a +:+ b).
Proof. reflexivity. Qed.

Lemma string_app_assoc (a b c : string) : (a +:+ b) +:+ c = a +:+ (b +:+ c).
Proof. induction a as [|x a IH]; [done|]. by rewrite !string_app_cons, IH. Qed.

Lemma string_app_nil_inv (a b : string) : a +:+ b = "" → b = "".
Proof. destruct a; [done|]. by rewrite string_app_cons. Qed.

Lemma py_endswith_app_slash (a b : string) :
  b ≠ "" → py_endswith (a +:+ b) "/" = py_endswith b "/".
Proof.
  intros Hb. induction a as [|c a IH]; [done|].
  rewrite string_app_cons. cbn [py_endswith]. rewrite IH.
  destruct (String.eqb_spec (String c (a +:+ b)) "/") as [Heq|]; [|done].
  injection Heq as _ Heq. by apply string_app_nil_inv in Heq.
Qed.

Lemma os_path_join_plain (a b : string) :
  a ≠ "" → py_endswith a "/" = false → py_startswith b "/" = false →
  os_path_join a b = a +:+ "/" +:+ b.
Proof.
  intros Ha Hs Hb. unfold os_path_join. rewrite Hb, Hs. by rewrite decide_False.
Qed.

Lemma dir_of_plain (root variant sub : string) :
  root ≠ "" → py_endswith root "/" = false →
  variant ≠ "" → py_startswith variant "/" = false → py_endswith variant "/" = false →
  py_startswith sub "/" = false →
  os_path_join (os_path_join root variant) sub = root +:+ "/" +:+ variant +:+ "/" +:+ sub.
Proof.
  intros Hr Hrs Hv Hvs Hve Hsub.
  rewrite (os_path_join_plain root variant) by done.
  rewrite os_path_join_plain; [by rewrite !string_app_assoc| | |done].
  - intros H. by apply string_app_nil_inv in H.
  - rewrite py_endswith_app_slash by done.
    destruct variant as [|c v]; [done|].
    change (py_endswith ("/" +:+ String c v) "/") with (py_endswith (String c v) "/"). done.
Qed.

(** C3: under the variant [synthetic] the index has one descriptor per name
    with the tabular extension listed in the events directory, in
    lexicographic order of the names; each pairs the event source with the
    label source of the same file name under the labels directory; only the
    events directory is listed, so nothing is checked on the label side. *)
Theorem C3_synthetic_index (root : string) (w : world) (names : list string) :
  let events_dir := events_dir_of root "synthetic" in
  let labels_dir := labels_dir_of root "synthetic" in
  dirs w !! strip_trailing_slash events_dir = Some names →
  ∃ samples w',
    _load_samples root "synthetic" w = (Ok samples, w')
    ∧ samples = (λ f, (os_path_join events_dir f, Some (os_path_join labels_dir f)))
                  <$> filter is_csv (py_sorted names)
    ∧ StronglySorted String.le (filter is_csv (py_sorted names))
    ∧ filter is_csv (py_sorted names) ≡ₚ filter is_csv names
    ∧ files w' = files w ∧ dirs w' = dirs w
    ∧ trace w' = (trace w ++ [IoListdir events_dir])%list
    ∧ (root ≠ "" → py_endswith root "/" = false →
       ∀ f, py_startswith f "/" = false →
         os_path_join events_dir f = root +:+ "/synthetic/events/" +:+ f
         ∧ os_path_join labels_dir f = root +:+ "/synthetic/labels/" +:+ f).
Proof.
  intros events_dir labels_dir Hdir.
  eexists _, _. split.
  { rewrite _load_samples_synthetic.
    fold events_dir. rewrite (os_listdir_Some _ _ _ Hdir). reflexivity. }
  split; [done|]. split; [apply py_sorted_csv_sorted|].
  split; [apply py_sorted_csv_perm|]. do 3 (split; [done|]).
  intros Hroot Hslash f Hf. unfold events_dir, labels_dir, events_dir_of, labels_dir_of.
  rewrite !(dir_of_plain root "synthetic") by done.
  assert (∀ d, d ≠ "" → py_endswith (root +:+ "/" +:+ "synthetic" +:+ "/" +:+ d) "/"
                        = py_endswith d "/") as Hend.
  { intros d Hd. rewrite <- !string_app_assoc. by apply py_endswith_app_slash. }
  rewrite !os_path_join_plain; try done.
  - by rewrite !string_app_assoc.
  - intros H. do 4 apply string_app_nil_inv in H. done.
  - by rewrite Hend.
  - intros H. do 4 apply string_app_nil_inv in H. done.
  - by rewrite Hend.
Qed.

Lemma C3_synthetic_index_witness :
  ∃ samples w',
    _load_samples "r" "synthetic"
      (World ∅ {[ "r/synthetic/events" := ["b.csv"; "a.csv"; "notes.txt"] ]} [])
    = (Ok samples, w')
    ∧ samples = [("r/synthetic/events/a.csv", Some "r/synthetic/labels/a.csv");
                 ("r/synthetic/events/b.csv", Some "r/synthetic/labels/b.csv")].
Proof.
  destruct (C3_synthetic_index "r"
              (World ∅ {[ "r/synthetic/events" := ["b.csv"; "a.csv"; "notes.txt"] ]} [])
              ["b.csv"; "a.csv"; "notes.txt"])
    as (samples & w' & H1 & H2 & _); [reflexivity|].
  exists samples, w'. split; [exact H1|]. rewrite H2. vm_compute. reflexivity.
Defined.

(** C4, as stated, fails: under the variant tag [real] the events directory
    lists [a.csv], yet the index is empty. *)
Lemma C4_counterexample :
  ¬ (∀ (root variant : string) (w : world) (names : list string),
       variant ≠ "synthetic" →
       dirs w !! strip_trailing_slash (events_dir_of root variant) = Some names →
       fst (_load_samples root variant w)
       = Ok ((λ f, (os_path_join (events_dir_of root variant) f, None))
               <$> filter is_csv (py_sorted names))).
Proof.
  intros H.
  specialize (H "r" "real" (World ∅ {[ "r/real/events" := ["a.csv"] ]} []) ["a.csv"]).
  vm_compute in H. discriminate H; [discriminate|reflexivity].
Qed.

(** C4, amended: under the variant [Real] every name with the tabular
    extension in the events directory becomes a descriptor with no label
    source, and only the events directory is listed; under any other
    non-synthetic variant the index is empty and nothing is listed; in every
    non-synthetic variant each descriptor has no label source and no labels
    directory is consulted. *)
Theorem C4_non_synthetic_index (root variant : string) (w : world) :
  variant ≠ "synthetic" →
  let events_dir := events_dir_of root variant in
  (variant = "Real" →
   ∀ names, dirs w !! strip_trailing_slash events_dir = Some names →
     _load_samples root variant w
     = (Ok ((λ f, (os_path_join events_dir f, None)) <$> filter is_csv (py_sorted names)),
        World (files w) (dirs w) (trace w ++ [IoListdir events_dir]))
     ∧ StronglySorted String.le (filter is_csv (py_sorted names))
     ∧ filter is_csv (py_sorted names) ≡ₚ filter is_csv names)
  ∧ (variant ≠ "Real" → _load_samples root variant w = (Ok [], w))
  ∧ (∀ samples w', _load_samples root variant w = (Ok samples, w') →
       Forall (λ d, d.2 = None) samples)
  ∧ (∀ r w', _load_samples root variant w = (r, w') →
       files w' = files w ∧ dirs w' = dirs w
       ∧ (trace w' = trace w ∨ trace w' = (trace w ++ [IoListdir events_dir])%list)).
Proof.
  intros Hsyn events_dir. split; [|split; [|split]].
  - intros -> names Hdir. rewrite _load_samples_Real.
    fold events_dir. rewrite (os_listdir_Some _ _ _ Hdir).
    split; [done|]. split; [apply py_sorted_csv_sorted|apply py_sorted_csv_perm].
  - intros HReal. by apply _load_samples_other.
  - intros samples w'. destruct (decide (variant = "Real")) as [->|HReal].
    + rewrite _load_samples_Real.
      destruct (os_listdir _ w) as [[names|e] w'']; [|done].
      intros [= <- <-]. apply Forall_fmap, Forall_forall. done.
    + rewrite _load_samples_other by done. intros [= <- <-]. constructor.
  - intros r w'. destruct (decide (variant = "Real")) as [->|HReal].
    + rewrite _load_samples_Real. unfold os_listdir. io_simpl. cbn [files dirs trace].
      fold events_dir.
      destruct (dirs w !! _); [|destruct (files w !! _)]; intros [= <- <-]; cbn; auto.
    + rewrite _load_samples_other by done. intros [= <- <-]. auto.
Qed.

Lemma C4_non_synthetic_index_witness :
  _load_samples "r" "Real" (World ∅ {[ "r/Real/events" := ["b.csv"; "a.csv"] ]} [])
  = (Ok [("r/Real/events/a.csv", None); ("r/Real/events/b.csv", None)],
     World ∅ {[ "r/Real/events" := ["b.csv"; "a.csv"] ]} [IoListdir "r/Real/events"]).
Proof.
  destruct (C4_non_synthetic_index "r" "Real"
              (World ∅ {[ "r/Real/events" := ["b.csv"; "a.csv"] ]} []))
    as (H & _); [discriminate|].
  destruct (H eq_refl ["b.csv"; "a.csv"] eq_refl) as [-> _]. vm_compute. reflexivity.
Defined.

(** C7, as stated, fails: under the variant tag [real] the events directory
    does not exist, yet construction succeeds. *)
Lemma C7_counterexample :
  ¬ (∀ (root variant : string) (transform : option (structured_array → result transformed))
       (w : world),
       dirs w !! strip_trailing_slash (events_dir_of root variant) = None →
       files w !! events_dir_of root variant = None →
       fst (__init__ root variant transform w) = Err FileNotFoundError).
Proof.
  intros H. specialize (H "r" "real" None (World ∅ ∅ []) eq_refl eq_refl).
  vm_compute in H. discriminate H.
Qed.

(** C7, amended: under the variants [synthetic] and [Real], construction
    fails with a not-found error when the events directory does not exist;
    when the directory exists and is empty, construction yields an index of
    zero samples; under any other variant construction yields an index of
    zero samples without looking at the directory. *)
Theorem C7_construct (root variant : string)
    (transform : option (structured_array → result transformed)) (w : world) :
  let events_dir := events_dir_of root variant in
  (variant = "synthetic" ∨ variant = "Real" →
   dirs w !! strip_trailing_slash events_dir = None → files w !! events_dir = None →
   fst (__init__ root variant transform w) = Err FileNotFoundError)
  ∧ (dirs w !! strip_trailing_slash events_dir = Some [] →
     ∃ w', __init__ root variant transform w
           = (Ok (Build_SamplesDataLoader root variant [] transform), w'))
  ∧ (variant ≠ "synthetic" → variant ≠ "Real" →
     __init__ root variant transform w
     = (Ok (Build_SamplesDataLoader root variant [] transform), w)).
Proof.
  intros events_dir. unfold __init__. split; [|split].
  - intros Hv Hd Hf. cbv [mbind io_bind].
    destruct Hv as [-> | ->];
      [rewrite _load_samples_synthetic|rewrite _load_samples_Real];
      fold events_dir; by rewrite (os_listdir_missing _ _ Hd Hf).
  - intros Hd. cbv [mbind io_bind mret io_ret].
    destruct (decide (variant = "synthetic")) as [->|Hs];
      [|destruct (decide (variant = "Real")) as [->|Hr]].
    + rewrite _load_samples_synthetic. fold events_dir.
      rewrite (os_listdir_Some _ _ _ Hd). eauto.
    + rewrite _load_samples_Real. fold events_dir.
      rewrite (os_listdir_Some _ _ _ Hd). eauto.
    + rewrite _load_samples_other by done. eauto.
  - intros Hs Hr. cbv [mbind io_bind mret io_ret].
    by rewrite _load_samples_other.
Qed.

Lemma C7_construct_witness :
  fst (__init__ "r" "synthetic" None (World ∅ ∅ [])) = Err FileNotFoundError
  ∧ ∃ w', __init__ "r" "Real" None (World ∅ {[ "r/Real/events" := [] ]} [])
          = (Ok (Build_SamplesDataLoader "r" "Real" [] None), w').
Proof.
  split.
  - apply (C7_construct "r" "synthetic" None (World ∅ ∅ []));
      [left; reflexivity|reflexivity|reflexivity].
  - apply (C7_construct "r" "Real" None (World ∅ {[ "r/Real/events" := [] ]} [])).
    reflexivity.
Defined.

(** ** The dataset accessor *)

Local Open Scope Z_scope.

Lemma logged_nil (w : world) : logged w [] = w.
Proof. destruct w. unfold logged. cbn. by rewrite app_nil_r. Qed.

Lemma logged_logged (w : world) (e1 e2 : list io_event) :
  logged (logged w e1) e2 = logged w (e1 ++ e2).
Proof. unfold logged. cbn. by rewrite app_assoc. Qed.

Lemma read_csv_eq (path : string) (w : world) :
  read_csv path w
  = (match files w !! path with
     | Some (CsvFile table) => Ok table
     | Some (PngFile _) => Err ParserError
     | None => Err FileNotFoundError
     end, logged w [IoReadCsv path]).
Proof.
  unfold read_csv. io_simpl. cbn [files dirs trace].
  by destruct (files w !! path) as [[?|?]|].
Qed.

Lemma py_getitem_out_of_range {A} (l : list A) (idx : Z) :
  Z.of_nat (length l) ≤ idx ∨ idx < - Z.of_nat (length l) →
  py_getitem l idx = Err IndexError.
Proof. intros H. unfold py_getitem. rewrite !decide_False by lia. done. Qed.

Lemma py_getitem_negative {A} (l : list A) (idx : Z) :
  - Z.of_nat (length l) ≤ idx < 0 →
  py_getitem l idx = py_getitem l (Z.of_nat (length l) + idx).
Proof.
  intros H. unfold py_getitem.
  rewrite decide_False, decide_True by lia. by rewrite decide_True by lia.
Qed.

Lemma py_getitem_in_range {A} (l : list A) (idx : Z) :
  0 ≤ idx < Z.of_nat (length l) → ∃ x, py_getitem l idx = Ok x ∧ l !! Z.to_nat idx = Some x.
Proof.
  intros H. unfold py_getitem. rewrite decide_True by lia. unfold getitem_nat.
  destruct (lookup_lt_is_Some_2 l (Z.to_nat idx)) as [x Hx]; [lia|].
  rewrite Hx. eauto.
Qed.

Section LoaderProperties.
Context `{!ArrayLib}.

Lemma np_array_Ok_inv rows dtype arr :
  np_array rows dtype = Ok arr →
  ∃ records, mapM (convert_tuple dtype) rows = Ok records
             ∧ arr = StructuredArray dtype records.
Proof.
  unfold np_array. destruct (mapM _ rows) as [records|e]; [|done].
  intros [= <-]. eauto.
Qed.

Lemma _load_events_eq (self : SamplesDataLoader) (path : string) (w : world) :
  _load_events self path w = (events_of self (files w) path, logged w [IoReadCsv path]).
Proof.
  unfold _load_events, events_of. cbv [mbind io_bind]. rewrite read_csv_eq.
  destruct (files w !! path) as [[rows|?]|]; [|done..].
  fold event_dtype. cbv [lift].
  destruct (np_array rows event_dtype) as [arr|e] eqn:Harr; [|done].
  apply np_array_Ok_inv in Harr as (records & _ & ->).
  change (dtype_names (StructuredArray event_dtype records)) with ["t"; "x"; "y"; "p"]%string.
  rewrite !bool_decide_eq_true_2 by (try done; set_solver).
  io_simpl. by destruct (self_transform self).
Qed.

Lemma _load_labels_eq (path : string) (w : world) :
  _load_labels path w = (labels_of (files w) path, logged w [IoReadCsv path]).
Proof.
  unfold _load_labels, labels_of. cbv [mbind io_bind]. rewrite read_csv_eq.
  by destruct (files w !! path) as [[[|header rows]|?]|].
Qed.

Lemma getitem_eq (self : SamplesDataLoader) (idx : Z) (w : world) :
  __getitem__ self idx w
  = match py_getitem (self_samples self) idx with
    | Err e => (Err e, w)
    | Ok (event_file, label_file) =>
        match events_of self (files w) event_file with
        | Err e => (Err e, logged w [IoReadCsv event_file])
        | Ok events =>
            match label_file with
            | None => (Ok (events, None), logged w [IoReadCsv event_file])
            | Some label_file =>
                (match labels_of (files w) label_file with
                 | Ok labels => Ok (events, Some labels)
                 | Err e => Err e
                 end, logged w [IoReadCsv event_file; IoReadCsv label_file])
            end
        end
    end.
Proof.
  unfold __getitem__. cbv [mbind io_bind lift].
  destruct (py_getitem (self_samples self) idx) as [[event_file label_file]|e]; [|done].
  rewrite _load_events_eq.
  destruct (events_of self (files w) event_file) as [events|e]; [|done].
  destruct label_file as [label_file|]; [|done].
  cbv [fmap io_fmap mret io_ret]. rewrite _load_labels_eq, logged_logged.
  change (files (logged w [IoReadCsv event_file])) with (files w).
  by destruct (labels_of (files w) label_file).
Qed.

(** Fetching reads files only: it records reads, and its outcome depends on
    nothing but the files. *)
Lemma getitem_frame (self : SamplesDataLoader) (idx : Z) (w : world) r w1 :
  __getitem__ self idx w = (r, w1) →
  ∃ evs, w1 = logged w evs
         ∧ Forall (λ ev, ¬ is_write ev) evs
         ∧ ∀ w2, files w2 = files w → __getitem__ self idx w2 = (r, logged w2 evs).
Proof.
  rewrite getitem_eq. intros Hget.
  assert (∀ evs r', (r', logged w evs) = (r, w1) → Forall (λ ev, ¬ is_write ev) evs →
            (∀ w2, files w2 = files w → __getitem__ self idx w2 = (r', logged w2 evs)) →
            ∃ evs, w1 = logged w evs ∧ Forall (λ ev, ¬ is_write ev) evs
                   ∧ ∀ w2, files w2 = files w → __getitem__ self idx w2 = (r, logged w2 evs))
    as Hgoal.
  { intros evs r' [= <- <-] ??. eauto. }
  destruct (py_getitem (self_samples self) idx) as [[event_file label_file]|e] eqn:Hidx.
  - destruct (events_of self (files w) event_file) as [events|e] eqn:Hev.
    + destruct label_file as [label_file|].
      * eapply Hgoal; [exact Hget| |].
        { repeat constructor; cbn; tauto. }
        intros w2 Hw2. rewrite getitem_eq, Hidx, Hw2, Hev. done.
      * eapply Hgoal; [exact Hget| |].
        { repeat constructor; cbn; tauto. }
        intros w2 Hw2. rewrite getitem_eq, Hidx, Hw2, Hev. done.
    + eapply Hgoal; [exact Hget| |].
      { repeat constructor; cbn; tauto. }
      intros w2 Hw2. rewrite getitem_eq, Hidx, Hw2, Hev. done.
  - eapply (Hgoal []); [by rewrite logged_nil| |].
    { constructor. }
    intros w2 Hw2. rewrite getitem_eq, Hidx, logged_nil. done.
Qed.
End LoaderProperties.

(** ** The event record codec *)

Lemma mapM_result_Ok_inv {A B} (f : A → result B) (l : list A) (k : list B) :
  mapM f l = Ok k → Forall2 (λ x y, f x = Ok y) l k.
Proof.
  revert k. induction l as [|x l IH]; intros k; cbn [mapM].
  - intros [= <-]. constructor.
  - destruct (f x) as [y|e] eqn:Hx; [|done]. cbn.
    destruct (mapM f l) as [k'|e]; [|done]. cbn. intros [= <-].
    constructor; auto.
Qed.

Lemma mapM_result_Err {A B} (f : A → result B) (l : list A) (e0 : exn) :
  (∀ x e, f x = Err e → e = e0) →
  Exists (λ x, ∃ e, f x = Err e) l → mapM f l = Err e0.
Proof.
  intros Hf. induction 1 as [x l [e Hx]|x l _ IH]; cbn [mapM].
  - rewrite Hx. cbn. by rewrite (Hf _ _ Hx).
  - destruct (f x) as [y|e] eqn:Hx; cbn; [by rewrite IH|by rewrite (Hf _ _ Hx)].
Qed.

Lemma exists_Forall2 {A B} (P : A → B → Prop) (l : list A) :
  Forall (λ x, ∃ y, P x y) l → ∃ k, Forall2 P l k.
Proof.
  induction 1 as [|x l [y Hy] _ [k Hk]]; [by exists []|].
  exists (y :: k). by constructor.
Qed.

Lemma wrap_int32_range (z : Z) : - 2 ^ 31 ≤ wrap_int32 z < 2 ^ 31.
Proof.
  unfold wrap_int32. change (2 ^ 31) with 2147483648. change (2 ^ 32) with 4294967296.
  pose proof (Z.mod_pos_bound (z + 2147483648) 4294967296 eq_refl). lia.
Qed.

Section CodecProperties.
Context `{!ArrayLib}.

Lemma convert_tuple_event (row : list cell) :
  convert_tuple event_dtype row
  = match row with
    | [t; x; y; p] =>
        match float64_setitem t, int32_setitem x, int32_setitem y, int32_setitem p with
        | Some ft, Some zx, Some zy, Some zp =>
            Ok [VFloat64 ft; VInt32 (wrap_int32 zx); VInt32 (wrap_int32 zy);
                VInt32 (wrap_int32 zp)]
        | _, _, _, _ => Err ValueError
        end
    | _ => Err ValueError
    end.
Proof.
  destruct row as [|t [|x [|y [|p [|q row]]]]]; cbn; try done.
  - by destruct (float64_setitem t).
  - destruct (float64_setitem t); [|done]. cbn. by destruct (int32_setitem x).
  - destruct (float64_setitem t); [|done]. cbn. destruct (int32_setitem x); [|done].
    cbn. by destruct (int32_setitem y).
  - destruct (float64_setitem t); [|done]. cbn. destruct (int32_setitem x); [|done].
    cbn. destruct (int32_setitem y); [|done]. cbn. by destruct (int32_setitem p).
  - destruct (float64_setitem t); [|done]. cbn. destruct (int32_setitem x); [|done].
    cbn. destruct (int32_setitem y); [|done]. cbn. by destruct (int32_setitem p).
Qed.

Lemma convert_tuple_coercible (row : list cell) :
  coercible row →
  ∃ record, convert_tuple event_dtype row = Ok record ∧ decodes_to row record.
Proof.
  intros (t & x & y & p & -> & [ft Ht] & [zx Hx] & [zy Hy] & [zp Hp]).
  rewrite convert_tuple_event, Ht, Hx, Hy, Hp.
  eexists. split; [done|]. by exists t, x, y, p, ft, zx, zy, zp.
Qed.

Lemma convert_tuple_Ok_decodes (row : list cell) (record : list scalar) :
  convert_tuple event_dtype row = Ok record → decodes_to row record.
Proof.
  rewrite convert_tuple_event.
  destruct row as [|t [|x [|y [|p [|q row]]]]]; try done.
  destruct (float64_setitem t) as [ft|] eqn:Ht; [|done].
  destruct (int32_setitem x) as [zx|] eqn:Hx; [|done].
  destruct (int32_setitem y) as [zy|] eqn:Hy; [|done].
  destruct (int32_setitem p) as [zp|] eqn:Hp; [|done].
  intros [= <-]. by exists t, x, y, p, ft, zx, zy, zp.
Qed.

Lemma convert_tuple_Err (row : list cell) (e : exn) :
  convert_tuple event_dtype row = Err e → e = ValueError.
Proof.
  rewrite convert_tuple_event.
  destruct row as [|t [|x [|y [|p [|q row]]]]]; try by intros [= <-].
  destruct (float64_setitem t), (int32_setitem x), (int32_setitem y), (int32_setitem p);
    try done; by intros [= <-].
Qed.

Lemma convert_tuple_not_coercible (row : list cell) :
  ¬ coercible row → ∃ e, convert_tuple event_dtype row = Err e.
Proof.
  intros Hrow. destruct (convert_tuple event_dtype row) as [record|e] eqn:Hc; [|eauto].
  exfalso. apply Hrow.
  apply convert_tuple_Ok_decodes in Hc
    as (t & x & y & p & ft & zx & zy & zp & -> & Ht & Hx & Hy & Hp & _).
  exists t, x, y, p. rewrite Ht, Hx, Hy, Hp. eauto.
Qed.

Lemma decodes_to_typed (row : list cell) (record : list scalar) :
  decodes_to row record → Forall2 has_type record (snd <$> event_dtype).
Proof.
  intros (t & x & y & p & ft & zx & zy & zp & _ & _ & _ & _ & _ & ->).
  repeat constructor; apply wrap_int32_range.
Qed.

Lemma np_array_coercible (rows : list (list cell)) :
  Forall coercible rows →
  ∃ records,
    np_array rows event_dtype = Ok (StructuredArray event_dtype records)
    ∧ Forall2 (λ row record,
                 convert_tuple event_dtype row = Ok record ∧ decodes_to row record)
        rows records.
Proof.
  intros Hrows.
  destruct (exists_Forall2 (λ row record,
              convert_tuple event_dtype row = Ok record ∧ decodes_to row record) rows)
    as [records Hrec].
  { eapply Forall_impl; [exact Hrows|]. apply convert_tuple_coercible. }
  exists records. split; [|done].
  unfold np_array. rewrite (mapM_result_Ok _ _ records); [done|].
  eapply Forall2_impl; [exact Hrec|]. by intros ?? [? _].
Qed.

Lemma np_array_not_coercible (rows : list (list cell)) :
  Exists (λ row, ¬ coercible row) rows → np_array rows event_dtype = Err ValueError.
Proof.
  intros Hbad. unfold np_array. rewrite (mapM_result_Err _ _ ValueError); [done| |].
  - apply convert_tuple_Err.
  - eapply Exists_impl; [exact Hbad|]. apply convert_tuple_not_coercible.
Qed.

(** C2: decoding a table whose rows all have four convertible cells yields a
    structured array with exactly the fields [t, x, y, p] of types float64,
    int32, int32, int32, whose records are the converted rows in row order,
    one per row; a table with a row that cannot be converted (such as one
    whose [x] cell is not numeric) makes the decoding, and the whole event
    load, fail with a [ValueError]. *)
Theorem C2_codec_schema (rows : list (list cell)) :
  (Forall coercible rows →
   ∃ arr,
     np_array rows event_dtype = Ok arr
     ∧ dtype_names arr = ["t"; "x"; "y"; "p"]
     ∧ snd <$> sa_dtype arr = [float64; int32; int32; int32]
     ∧ Forall2 decodes_to rows (sa_records arr)
     ∧ Forall (λ record, Forall2 has_type record (snd <$> sa_dtype arr)) (sa_records arr)
     ∧ ∀ self path w,
         files w !! path = Some (CsvFile rows) →
         _load_events self path w
         = (match self_transform self with
            | Some transform => transform arr
            | None => Err TypeError
            end, logged w [IoReadCsv path]))
  ∧ (Exists (λ row, ¬ coercible row) rows →
     np_array rows event_dtype = Err ValueError
     ∧ ∀ self path w,
         files w !! path = Some (CsvFile rows) →
         _load_events self path w = (Err ValueError, logged w [IoReadCsv path]))
  ∧ (∀ t x y p, int32_setitem x = None → ¬ coercible [t; x; y; p]).
Proof.
  split; [|split].
  - intros Hrows. destruct (np_array_coercible rows Hrows) as (records & Harr & Hrec).
    exists (StructuredArray event_dtype records).
    split; [done|]. split; [done|]. split; [done|]. split; [|split].
    + eapply Forall2_impl; [exact Hrec|]. by intros ?? [_ ?].
    + apply Forall_forall. intros record Hin.
      apply list_elem_of_lookup in Hin as [i Hi].
      destruct (Forall2_lookup_r _ _ _ _ _ Hrec Hi) as (row & _ & _ & Hdec).
      by eapply decodes_to_typed.
    + intros self path w Hfile. rewrite _load_events_eq. unfold events_of.
      by rewrite Hfile, Harr.
  - intros Hbad. pose proof (np_array_not_coercible rows Hbad) as Harr.
    split; [done|]. intros self path w Hfile. rewrite _load_events_eq. unfold events_of.
    by rewrite Hfile, Harr.
  - intros t x y p Hx (t' & x' & y' & p' & [= <- <- <- <-] & _ & [zx Hzx] & _).
    congruence.
Qed.
End CodecProperties.

Lemma C2_codec_schema_witness :
  (∃ arr, np_array [[CFloat float_0_5; CInt 3; CInt 4; CInt 1];
                    [CInt 2; CInt 5; CFloat float_1_0; CInt 0]] event_dtype = Ok arr
          ∧ dtype_names arr = ["t"; "x"; "y"; "p"])
  ∧ np_array [[CFloat float_0_5; CStr "abc"; CInt 4; CInt 1]] event_dtype = Err ValueError.
Proof.
  split.
  - destruct (C2_codec_schema [[CFloat float_0_5; CInt 3; CInt 4; CInt 1];
                               [CInt 2; CInt 5; CFloat float_1_0; CInt 0]])
      as [H _].
    destruct H as (arr & H1 & H2 & _).
    { repeat constructor; eexists _, _, _, _; repeat split; cbn; eauto. }
    exists arr. split; [exact H1|exact H2].
  - destruct (C2_codec_schema [[CFloat float_0_5; CStr "abc"; CInt 4; CInt 1]])
      as (_ & H & Hx).
    apply H. constructor. apply Hx. reflexivity.
Defined.

(** C5, as stated, fails: on a non-empty index [get(-1)] is not a range
    error, it resolves the last descriptor. *)
Lemma C5_counterexample :
  ¬ (∀ (L : ArrayLib) (self : SamplesDataLoader) (w : world),
       self_samples self ≠ [] → fst (__getitem__ self (-1) w) = Err IndexError).
Proof.
  intros H.
  specialize (H numeric_cells (example_loader (Some (λ _, Ok None))) example_world).
  vm_compute in H. discriminate H. discriminate.
Qed.

Section AccessorProperties.
Context `{!ArrayLib}.

(** C5, amended: [get(i)] fails with a range error, leaving the world
    untouched, whenever [i >= length()] or [i < -length()], in particular for
    [i = length()] and for every [i] when [length() = 0]; an index in
    [-length(), 0) is resolved as [length() + i]. *)
Theorem C5_range_checking (self : SamplesDataLoader) (idx : Z) (w : world) :
  let n := Z.of_nat (length (self_samples self)) in
  (n ≤ idx ∨ idx < - n → __getitem__ self idx w = (Err IndexError, w))
  ∧ __getitem__ self n w = (Err IndexError, w)
  ∧ (n = 0 → __getitem__ self idx w = (Err IndexError, w))
  ∧ (- n ≤ idx < 0 → __getitem__ self idx w = __getitem__ self (n + idx) w).
Proof.
  intros n.
  assert (∀ i, n ≤ i ∨ i < - n → __getitem__ self i w = (Err IndexError, w)) as Hout.
  { intros i Hi. by rewrite getitem_eq, py_getitem_out_of_range. }
  split; [apply Hout|]. split; [apply Hout; lia|]. split; [intros Hn; apply Hout; lia|].
  intros Hneg. by rewrite !getitem_eq, py_getitem_negative.
Qed.

(** C6, amended: with no transform configured every [get(index)] fails; when
    the index is in range and the event file is read and decoded, the failure
    is the [TypeError] of calling the absent transform, raised after the
    event file has been read and before any label file is read; an index out
    of range, a missing event file and a row that cannot be converted fail
    earlier, with their own errors. *)
Theorem C6_missing_transform (self : SamplesDataLoader) :
  self_transform self = None →
  (∀ idx w, ∃ e w', __getitem__ self idx w = (Err e, w'))
  ∧ (∀ idx w event_file label_file rows,
       py_getitem (self_samples self) idx = Ok (event_file, label_file) →
       files w !! event_file = Some (CsvFile rows) →
       Forall coercible rows →
       __getitem__ self idx w = (Err TypeError, logged w [IoReadCsv event_file]))
  ∧ (∀ idx w,
       py_getitem (self_samples self) idx = Err IndexError →
       __getitem__ self idx w = (Err IndexError, w))
  ∧ (∀ idx w event_file label_file,
       py_getitem (self_samples self) idx = Ok (event_file, label_file) →
       files w !! event_file = None →
       __getitem__ self idx w = (Err FileNotFoundError, logged w [IoReadCsv event_file]))
  ∧ (∀ idx w event_file label_file rows,
       py_getitem (self_samples self) idx = Ok (event_file, label_file) →
       files w !! event_file = Some (CsvFile rows) →
       Exists (λ row, ¬ coercible row) rows →
       __getitem__ self idx w = (Err ValueError, logged w [IoReadCsv event_file])).
Proof.
  intros Hnone. split; [|split; [|split; [|split]]].
  - intros idx w. rewrite getitem_eq.
    destruct (py_getitem (self_samples self) idx) as [[event_file label_file]|e]; [|eauto].
    assert (∃ e, events_of self (files w) event_file = Err e) as [e ->]; [|eauto].
    unfold events_of. rewrite Hnone.
    destruct (files w !! event_file) as [[rows|?]|]; eauto.
    destruct (np_array rows event_dtype); eauto.
  - intros idx w event_file label_file rows Hidx Hfile Hrows.
    destruct (np_array_coercible rows Hrows) as (records & Harr & _).
    rewrite getitem_eq, Hidx. unfold events_of. by rewrite Hfile, Harr, Hnone.
  - intros idx w Hidx. by rewrite getitem_eq, Hidx.
  - intros idx w event_file label_file Hidx Hfile.
    rewrite getitem_eq, Hidx. unfold events_of. by rewrite Hfile.
  - intros idx w event_file label_file rows Hidx Hfile Hbad.
    rewrite getitem_eq, Hidx. unfold events_of.
    by rewrite Hfile, (np_array_not_coercible rows Hbad).
Qed.
End AccessorProperties.

Lemma C5_range_checking_witness :
  __getitem__ (example_loader None) (-2) example_world = (Err IndexError, example_world).
Proof.
  destruct (C5_range_checking (example_loader None) (-2) example_world) as [H _].
  apply H. right. simpl. lia.
Defined.

(** C6, as stated, fails: with no transform configured the failing [get(0)]
    has read the event file first. *)
Lemma C6_counterexample :
  ¬ (∀ (L : ArrayLib) (self : SamplesDataLoader) (idx : Z) (w : world),
       self_transform self = None →
       ∃ w', __getitem__ self idx w = (Err TypeError, w') ∧ trace w' = trace w).
Proof.
  intros H.
  destruct (H numeric_cells (example_loader None) 0 example_world eq_refl)
    as (w' & Hget & Htrace).
  vm_compute in Hget. injection Hget as <-. vm_compute in Htrace. discriminate Htrace.
Qed.

Lemma C6_missing_transform_witness :
  __getitem__ (example_loader None) 0 example_world
  = (Err TypeError, logged example_world [IoReadCsv "r/Real/events/traj001.csv"]).
Proof.
  destruct (C6_missing_transform (example_loader None) eq_refl) as (_ & H & _).
  apply (H 0 example_world "r/Real/events/traj001.csv" None
           [[CInt 0; CInt 1; CInt 2; CInt 1]]).
  - reflexivity.
  - reflexivity.
  - repeat constructor. eexists _, _, _, _. repeat split; cbn; eauto.
Defined.

(** ** The sample materializer *)

Lemma py_split_nonempty (sep : ascii) (s : string) : py_split sep s ≠ [].
Proof.
  induction s as [|c s IH]; cbn [py_split]; [done|].
  destruct (Ascii.eqb c sep); [done|]. by destruct (py_split sep s).
Qed.

Lemma py_getitem_last {A} (l : list A) (d : A) :
  l ≠ [] → py_getitem l (-1) = Ok (default d (last l)).
Proof.
  intros Hl. unfold py_getitem.
  assert (0 < length l)%nat by (destruct l; [done|cbn; lia]).
  rewrite decide_False, decide_True by lia. unfold getitem_nat.
  rewrite last_lookup.
  replace (Z.to_nat (Z.of_nat (length l) + -1)) with (Init.Nat.pred (length l)) by lia.
  destruct (lookup_lt_is_Some_2 l (Init.Nat.pred (length l))) as [x ->]; [lia|done].
Qed.

Lemma py_getitem_head {A} (l : list A) (d : A) :
  l ≠ [] → py_getitem l 0 = Ok (default d (head l)).
Proof.
  intros Hl. destruct l as [|x l]; [done|].
  unfold py_getitem. rewrite decide_True by (cbn; lia). done.
Qed.

Lemma traj_name_eq (event_file : string) :
  (last ← py_getitem (py_split "/" event_file) (-1); py_getitem (py_split "." last) 0)
  = Ok (traj_name_of event_file).
Proof.
  rewrite (py_getitem_last _ "") by apply py_split_nonempty. cbn [mbind result_bind].
  rewrite (py_getitem_head _ "") by apply py_split_nonempty. done.
Qed.

Lemma py_endswith_refl (s : string) : py_endswith s s = true.
Proof. destruct s; cbn [py_endswith]; by rewrite String.eqb_refl. Qed.

Lemma py_endswith_app (a b : string) : py_endswith (a +:+ b) b = true.
Proof.
  induction a as [|c a IH]; [apply py_endswith_refl|].
  rewrite string_app_cons. cbn [py_endswith]. rewrite IH. apply orb_true_r.
Qed.

Lemma out_dir_slash (file_path traj_name : string) :
  py_endswith (out_dir file_path traj_name) "/" = true.
Proof.
  unfold out_dir. rewrite <- !string_app_assoc. apply py_endswith_app.
Qed.

Lemma io_bind_eq {A B} (m : io A) (f : A → io B) (w : world) :
  (m ≫= f) w
  = match m w with
    | (Ok a, w') => f a w'
    | (Err e, w') => (Err e, w')
    end.
Proof. reflexivity. Qed.

Lemma io_mapM_cons {A B} (f : A → io B) (x : A) (l : list A) (w : world) :
  mapM f (x :: l) w
  = match f x w with
    | (Ok y, w1) =>
        match mapM f l w1 with
        | (Ok k, w2) => (Ok (y :: k), w2)
        | (Err e, w2) => (Err e, w2)
        end
    | (Err e, w1) => (Err e, w1)
    end.
Proof.
  cbn [mapM]. cbv [mbind io_bind mret io_ret].
  destruct (f x w) as [[y|e] w1]; [|done]. by destruct (mapM f l w1) as [[k|e] w2].
Qed.

Lemma save_frame_eq (dir traj_name : string) (i : nat) (frame : ndarray3) (w : world) :
  (_ ← print (format_03 i);
   image_save (dir +:+ "img" +:+ format_03 i +:+ "_"
               +:+ py_slice_from 4 traj_name +:+ ".png") frame) w
  = (Ok tt,
     World (<[frame_path dir traj_name i := PngFile frame]> (files w)) (dirs w)
       (trace w ++ [IoPrint (format_03 i); IoSaveImage (frame_path dir traj_name i)])).
Proof.
  unfold image_save. io_simpl. cbn [files dirs trace]. by rewrite <- app_assoc.
Qed.

Lemma save_loop_eq (dir traj_name : string) (l : list (nat * ndarray3)) (w : world) :
  mapM (λ '(i, frame),
          let number := format_03 i in
          _ ← print number;
          image_save (dir +:+ "img" +:+ number +:+ "_"
                      +:+ py_slice_from 4 traj_name +:+ ".png") frame) l w
  = (Ok ((λ _, tt) <$> l),
     World (write_frames dir traj_name (files w) l) (dirs w)
       (trace w ++ frame_events dir traj_name l)).
Proof.
  revert w. induction l as [|[i frame] l IH]; intros w.
  - cbn. unfold frame_events. cbn. rewrite app_nil_r. by destruct w.
  - rewrite io_mapM_cons. cbv zeta. rewrite save_frame_eq, IH.
    cbn [files dirs trace fmap list_fmap]. unfold write_frames, frame_events.
    cbn [foldl mbind list_bind]. by rewrite <- !app_assoc.
Qed.

Lemma prepare_dir_eq (dir : string) (w : world) :
  py_endswith dir "/" = true → dir_ready w dir →
  (present ← os_path_exists dir; if negb present then os_makedirs dir else mret tt) w
  = (Ok tt, World (files w) (dirs_with w dir) (trace w ++ prepare_events w dir)).
Proof.
  intros Hslash Hready. unfold os_path_exists, os_makedirs, dirs_with, prepare_events.
  io_simpl. cbn [files dirs trace]. rewrite Hslash. cbn [negb andb]. rewrite orb_false_r.
  destruct (decide (is_Some (dirs w !! strip_trailing_slash dir))) as [Hd|Hd].
  - rewrite bool_decide_eq_true_2 by done. done.
  - rewrite (bool_decide_eq_false_2 _ Hd). cbn [negb orb files dirs trace].
    destruct Hready as [?|Hf]; [done|].
    rewrite (bool_decide_eq_false_2 _ Hd). cbn [orb].
    rewrite bool_decide_eq_false_2 by (rewrite Hf; by intros [? ?]).
    by rewrite <- app_assoc.
Qed.

Lemma generate_rgb_total (events : list spec_float) :
  generate_rgb_from_samples events
  = Ok (frame_at events <$> seq 0 (length events / 3)).
Proof.
  apply generate_rgb_frame_at with (length events `mod` 3)%nat.
  - apply Nat.div_mod_eq.
  - apply Nat.mod_upper_bound. lia.
Qed.

Section MaterializerProperties.
Context `{!ArrayLib}.

Lemma save_sample_eq (self : SamplesDataLoader) (idx : Z) (out : string) (w : world)
    (sample : string * option string) :
  py_getitem (self_samples self) idx = Ok sample →
  let name := traj_name_of sample.1 in
  let dir := out_dir out name in
  dir_ready w dir →
  save_sample self idx out w
  = match __getitem__ self idx
            (World (files w) (dirs_with w dir) (trace w ++ prepare_events w dir)) with
    | (Err e, w1) => (Err e, w1)
    | (Ok (None, _), w1) => (Ok tt, logged w1 [IoPrint rejected_message])
    | (Ok (Some events, _), w1) =>
        let l := imap (λ i frame, (i, frame)) (frame_at events <$> seq 0 (length events / 3)) in
        shutil_copy (label_src name) (label_dst dir name)
          (World (write_frames dir name (files w1) l) (dirs w1)
             (trace w1 ++ frame_events dir name l))
    end.
Proof.
  intros Hidx name dir Hready. unfold save_sample.
  rewrite io_bind_eq. unfold lift at 1. rewrite Hidx.
  rewrite io_bind_eq. unfold lift at 1.
  rewrite (py_getitem_last _ "") by apply py_split_nonempty.
  rewrite io_bind_eq. unfold lift at 1.
  rewrite (py_getitem_head _ "") by apply py_split_nonempty.
  fold (traj_name_of sample.1). fold name. cbv zeta. fold (out_dir out name). fold dir.
  pose proof (prepare_dir_eq dir w (out_dir_slash out name) Hready) as Hprep.
  rewrite io_bind_eq in Hprep. rewrite io_bind_eq.
  destruct (os_path_exists dir w) as [[present|e] w0]; [|done].
  rewrite io_bind_eq, Hprep, io_bind_eq.
  destruct (__getitem__ self idx _) as [[[[events|] labels]|e] w1]; [| |done].
  - rewrite io_bind_eq. unfold lift at 1. rewrite generate_rgb_total.
    rewrite io_bind_eq, save_loop_eq. done.
  - done.
Qed.
End MaterializerProperties.

Lemma string_length_app (a b : string) :
  String.length (a +:+ b) = (String.length a + String.length b)%nat.
Proof. induction a as [|c a IH]; [done|]. rewrite string_app_cons. cbn. by rewrite IH. Qed.

Lemma py_endswith_app_same_length (a b suffix : string) :
  String.length b = String.length suffix →
  py_endswith (a +:+ b) suffix = py_endswith b suffix.
Proof.
  intros Hlen. induction a as [|c a IH]; [done|].
  rewrite string_app_cons. cbn [py_endswith]. rewrite IH.
  destruct (String.eqb_spec (String c (a +:+ b)) suffix) as [Heq|]; [|done].
  apply (f_equal String.length) in Heq. cbn in Heq. rewrite string_length_app in Heq. lia.
Qed.

Lemma frame_path_png (dir traj_name : string) (i : nat) :
  py_endswith (frame_path dir traj_name i) ".png" = true.
Proof. unfold frame_path. rewrite <- !string_app_assoc. apply py_endswith_app. Qed.

Lemma label_src_not_png (traj_name : string) :
  py_endswith (label_src traj_name) ".png" = false.
Proof.
  unfold label_src. rewrite <- !string_app_assoc.
  by rewrite py_endswith_app_same_length.
Qed.

Lemma write_frames_lookup (dir traj_name : string) (l : list (nat * ndarray3))
    (fs : gmap string file_content) (k : string) :
  py_endswith k ".png" = false →
  write_frames dir traj_name fs l !! k = fs !! k.
Proof.
  intros Hk. revert fs. induction l as [|[i frame] l IH]; intros fs; [done|].
  unfold write_frames in *. cbn [foldl]. rewrite IH. apply lookup_insert_ne.
  intros Heq. pose proof (frame_path_png dir traj_name i) as Hpng. congruence.
Qed.

Lemma shutil_copy_eq (src dst : string) (w : world) :
  shutil_copy src dst w
  = match files w !! src with
    | Some c => (Ok tt, World (<[dst := c]> (files w)) (dirs w) (trace w ++ [IoCopy src dst]))
    | None => (Err FileNotFoundError, logged w [IoCopy src dst])
    end.
Proof.
  unfold shutil_copy. io_simpl. cbn [files dirs trace]. by destruct (files w !! src).
Qed.

Lemma dirs_with_present (w : world) (dir : string) :
  is_Some (dirs_with w dir !! strip_trailing_slash dir).
Proof.
  unfold dirs_with. destruct (decide _) as [Hd|]; [done|].
  rewrite lookup_insert_eq. eauto.
Qed.

Lemma prepare_events_no_write (w : world) (dir : string) :
  Forall (λ ev, ¬ is_write ev) (prepare_events w dir).
Proof. unfold prepare_events. destruct (decide _); repeat constructor; cbn; tauto. Qed.

Lemma saved_images_no_write (evs : list io_event) :
  Forall (λ ev, ¬ is_write ev) evs → saved_images evs = [].
Proof.
  induction 1 as [|ev evs Hev _ IH]; [done|].
  unfold saved_images in *. cbn [omap list_omap]. rewrite IH.
  destruct ev; cbn in *; try done; tauto.
Qed.

Lemma saved_images_frame_events (dir traj_name : string) (l : list (nat * ndarray3)) :
  saved_images (frame_events dir traj_name l) = (λ p, frame_path dir traj_name p.1) <$> l.
Proof.
  induction l as [|[i frame] l IH]; [done|].
  unfold frame_events, saved_images in *. cbn [mbind list_bind]. rewrite omap_app, IH. done.
Qed.

Lemma imap_pair_fst {A} (l : list A) :
  (λ p : nat * A, p.1) <$> imap (λ i x, (i, x)) l = seq 0 (length l).
Proof.
  rewrite fmap_imap. unfold compose. cbn [fst].
  rewrite (imap_seq_0 l (λ j, j)). apply list_fmap_id.
Qed.

Section MaterializerTheorems.
Context `{!ArrayLib}.

Lemma getitem_Ok_sample (self : SamplesDataLoader) (idx : Z) (w : world) x w1 :
  __getitem__ self idx w = (Ok x, w1) →
  ∃ sample, py_getitem (self_samples self) idx = Ok sample.
Proof.
  rewrite getitem_eq. destruct (py_getitem (self_samples self) idx); [eauto|]. done.
Qed.

(** C8: when the fetch yields absent events, [save_sample] logs the
    rejection and returns normally; no file is written, no image saved and
    nothing copied; the output directory, created if it was absent, is left
    in place. *)
Theorem C8_filtered_sample (self : SamplesDataLoader) (idx : Z) (out : string)
    (w : world) (labels : option recarray) (w1 : world) :
  __getitem__ self idx w = (Ok (None, labels), w1) →
  ∃ sample,
    py_getitem (self_samples self) idx = Ok sample
    ∧ let dir := out_dir out (traj_name_of sample.1) in
      (dir_ready w dir →
       ∃ w' evs,
         save_sample self idx out w = (Ok tt, w')
         ∧ files w' = files w
         ∧ dirs w' = dirs_with w dir
         ∧ is_Some (dirs w' !! strip_trailing_slash dir)
         ∧ trace w' = (trace w ++ evs ++ [IoPrint rejected_message])%list
         ∧ Forall (λ ev, ¬ is_write ev) evs).
Proof.
  intros Hget. destruct (getitem_Ok_sample _ _ _ _ _ Hget) as [sample Hidx].
  exists sample. split; [done|]. intros dir Hready.
  destruct (getitem_frame _ _ _ _ _ Hget) as (evs & _ & Hevs & Hframe).
  rewrite (save_sample_eq self idx out w sample Hidx Hready). fold dir.
  rewrite Hframe by done.
  eexists _, (prepare_events w dir ++ evs)%list. split; [done|]. cbn [files dirs trace logged].
  split; [done|]. split; [done|]. split; [apply dirs_with_present|].
  split; [by rewrite <- !app_assoc|].
  apply Forall_app. split; [apply prepare_events_no_write|done].
Qed.

(** C9: when the sample's events are present, [save_sample] ends by copying
    the fixed path [root_dir/synthetic/labels/<name>.csv], built from the
    module-level root and the sample's name only, to
    [<out>/<name>/<name>.csv]; it fails with a not-found error when no file
    exists at that fixed path, whatever the descriptor records. *)
Theorem C9_label_copy (self : SamplesDataLoader) (idx : Z) (out : string)
    (w : world) (events : list spec_float) (labels : option recarray) (w1 : world) :
  __getitem__ self idx w = (Ok (Some events, labels), w1) →
  ∃ sample,
    py_getitem (self_samples self) idx = Ok sample
    ∧ let name := traj_name_of sample.1 in
      let dir := out +:+ "/" +:+ name +:+ "/" in
      let src := root_dir +:+ "/synthetic/labels/" +:+ name +:+ ".csv" in
      let dst := dir +:+ name +:+ ".csv" in
      (dir_ready w dir →
       ∃ r w',
         save_sample self idx out w = (r, w')
         ∧ last (trace w') = Some (IoCopy src dst)
         ∧ (files w !! src = None → r = Err FileNotFoundError)
         ∧ (∀ c, files w !! src = Some c → r = Ok tt ∧ files w' !! dst = Some c)).
Proof.
  intros Hget. destruct (getitem_Ok_sample _ _ _ _ _ Hget) as [sample Hidx].
  exists sample. split; [done|]. intros name dir src dst Hready.
  destruct (getitem_frame _ _ _ _ _ Hget) as (evs & _ & Hevs & Hframe).
  rewrite (save_sample_eq self idx out w sample Hidx Hready).
  fold name. fold (out_dir out name). change (out_dir out name) with dir.
  rewrite Hframe by done. cbv zeta. rewrite shutil_copy_eq. cbn [files dirs trace logged].
  change (label_src name) with src. change (label_dst dir name) with dst.
  rewrite write_frames_lookup by apply label_src_not_png.
  destruct (files w !! src) as [c|] eqn:Hsrc.
  - eexists _, _. split; [done|]. cbn [trace files]. split; [by rewrite last_snoc|].
    split; [done|]. intros c' [= <-]. split; [done|]. apply lookup_insert_eq.
  - eexists _, _. split; [done|]. unfold logged. cbn [trace files].
    split; [by rewrite last_snoc|]. split; [done|]. done.
Qed.
End MaterializerTheorems.

Lemma contains_char_app (c : ascii) (a b : string) :
  contains_char c (a +:+ b) = contains_char c a || contains_char c b.
Proof.
  induction a as [|x a IH]; [done|].
  rewrite string_app_cons. cbn [contains_char]. by rewrite IH, orb_assoc.
Qed.

Lemma py_split_snoc (sep : ascii) (a b : string) :
  contains_char sep b = false →
  ∃ l, py_split sep (a +:+ String sep b) = (l ++ [b])%list ∧ l ≠ [].
Proof.
  intros Hb. induction a as [|c a (l & IH & Hl)].
  - exists [""]. split; [|done]. change ("" +:+ String sep b) with (String sep b).
    cbn [py_split]. rewrite Ascii.eqb_refl.
    assert (py_split sep b = [b]) as ->; [|done].
    clear -Hb. induction b as [|x b IH]; [done|]. cbn [contains_char] in Hb.
    apply orb_false_elim in Hb as [Hx Hb]. cbn [py_split]. by rewrite Hx, IH.
  - rewrite string_app_cons. cbn [py_split]. rewrite IH.
    destruct (Ascii.eqb c sep).
    + exists ("" :: l). done.
    + destruct l as [|w l]; [done|]. exists (String c w :: l). done.
Qed.

Lemma py_split_head (sep : ascii) (a b : string) :
  contains_char sep a = false →
  head (py_split sep (a +:+ String sep b)) = Some a.
Proof.
  induction a as [|c a IH]; intros Ha.
  - change ("" +:+ String sep b) with (String sep b). cbn [py_split].
    by rewrite Ascii.eqb_refl.
  - cbn [contains_char] in Ha. apply orb_false_elim in Ha as [Hc Ha].
    rewrite string_app_cons. cbn [py_split]. rewrite Hc.
    specialize (IH Ha). destruct (py_split sep (a +:+ String sep b)) as [|w ws]; [done|].
    injection IH as ->. done.
Qed.

(** For a file name with a single dot, the sample name is the file name
    minus its extension. *)
Lemma traj_name_of_plain (dir stem : string) :
  contains_char "/" stem = false → contains_char "." stem = false →
  traj_name_of (dir +:+ "/" +:+ stem +:+ ".csv") = stem.
Proof.
  intros Hslash Hdot. unfold traj_name_of.
  change (dir +:+ "/" +:+ stem +:+ ".csv") with (dir +:+ String "/" (stem +:+ ".csv")).
  destruct (py_split_snoc "/" dir (stem +:+ ".csv")) as (l & -> & _).
  { rewrite contains_char_app, Hslash. done. }
  rewrite last_snoc. change (default "" (Some (stem +:+ ".csv"))) with (stem +:+ String "." "csv").
  by rewrite py_split_head.
Qed.

Lemma format_03_width (i : nat) : (i < 1000)%nat → String.length (format_03 i) = 3%nat.
Proof.
  intros Hi.
  assert (forallb (λ j, Nat.eqb (String.length (format_03 j)) 3) (seq 0 1000) = true) as Hall
    by (vm_compute; reflexivity).
  rewrite forallb_forall in Hall. apply Nat.eqb_eq, Hall, in_seq. lia.
Qed.

(** C10, as stated, fails: for the event file [traj001.v2.csv] the image is
    [img000_001.png], whereas the file name minus its extension, less four
    characters, is [001.v2]. *)
Lemma C10_counterexample :
  ¬ (∀ (L : ArrayLib) (self : SamplesDataLoader) (idx : Z) (out : string) (w : world)
       (sample : string * option string),
       py_getitem (self_samples self) idx = Ok sample →
       Forall (λ p, py_endswith p ("_" +:+ py_slice_from 4 (minus_extension (basename sample.1))
                                   +:+ ".png") = true)
         (saved_images (trace (save_sample self idx out w).2))).
Proof.
  intros H.
  specialize (H numeric_cells
                (Build_SamplesDataLoader "r" "Real"
                   [("r/Real/events/traj001.v2.csv", None)]
                   (Some (λ _, Ok (Some [float_0_0; float_0_5; float_1_0]))))
                0 "out"
                (World {[ "r/Real/events/traj001.v2.csv"
                          := CsvFile [[CInt 0; CInt 1; CInt 2; CInt 1]] ]} ∅ [])
                _ eq_refl).
  vm_compute in H. inversion H as [|p l Hp Hl]. discriminate Hp.
Qed.

Section NamingTheorems.
Context `{!ArrayLib}.

(** C10, amended: the frames of a sample are saved, in order, as
    [<out>/<name>/img<NNN>_<suffix>.png], [<NNN>] counting from 000 and
    padded with zeros to three digits, [<suffix>] being the sample's name less
    its first four characters; the name is the event-source file name up to
    its first dot, which is the file name minus [.csv] when the name has no
    other dot; [traj001] gives [img000_001.png], [img001_001.png], ... *)
Theorem C10_frame_names (self : SamplesDataLoader) (idx : Z) (out : string)
    (w : world) (events : list spec_float) (labels : option recarray) (w1 : world) :
  __getitem__ self idx w = (Ok (Some events, labels), w1) →
  ∃ sample,
    py_getitem (self_samples self) idx = Ok sample
    ∧ let name := traj_name_of sample.1 in
      let dir := out +:+ "/" +:+ name +:+ "/" in
      (dir_ready w dir →
       ∃ r w' evs,
         save_sample self idx out w = (r, w')
         ∧ trace w' = (trace w ++ evs)%list
         ∧ saved_images evs
           = (λ i, dir +:+ "img" +:+ format_03 i +:+ "_" +:+ py_slice_from 4 name +:+ ".png")
               <$> seq 0 (length events / 3))
      ∧ (∀ d stem, contains_char "/" stem = false → contains_char "." stem = false →
           sample.1 = d +:+ "/" +:+ stem +:+ ".csv" → name = stem)
      ∧ format_03 0 = "000" ∧ format_03 1 = "001"
      ∧ (∀ i, (i < 1000)%nat → String.length (format_03 i) = 3%nat)
      ∧ traj_name_of "r/synthetic/events/traj001.csv" = "traj001"
      ∧ py_slice_from 4 "traj001" = "001".
Proof.
  intros Hget. destruct (getitem_Ok_sample _ _ _ _ _ Hget) as [sample Hidx].
  exists sample. split; [done|]. intros name dir.
  split; [|split; [|split; [done|split; [done|split; [apply format_03_width|done]]]]].
  - intros Hready.
    destruct (getitem_frame _ _ _ _ _ Hget) as (evs & _ & Hevs & Hframe).
    rewrite (save_sample_eq self idx out w sample Hidx Hready).
    fold name. fold (out_dir out name). change (out_dir out name) with dir.
    rewrite Hframe by done. cbv zeta. rewrite shutil_copy_eq. cbn [files dirs trace logged].
    set (l := imap _ _).
    assert (saved_images ((prepare_events w dir ++ evs) ++ frame_events dir name l
                          ++ [IoCopy (label_src name) (label_dst dir name)])
            = (λ i, frame_path dir name i) <$> seq 0 (length events / 3)) as Himg.
    { unfold saved_images. rewrite !omap_app. fold (saved_images (prepare_events w dir)).
      fold (saved_images evs). fold (saved_images (frame_events dir name l)).
      rewrite !saved_images_no_write by (done || apply prepare_events_no_write).
      rewrite saved_images_frame_events. cbn [omap list_omap app]. rewrite app_nil_r.
      rewrite (list_fmap_compose (λ p : nat * ndarray3, p.1) (frame_path dir name)).
      unfold l. by rewrite imap_pair_fst, length_fmap, length_seq. }
    destruct (write_frames dir name (files w) l !! label_src name) as [c|].
    + eexists _, _, _. split; [done|]. cbn [trace]. split; [|exact Himg].
      by rewrite <- !app_assoc.
    + eexists _, _, _. split; [done|]. unfold logged. cbn [trace]. split; [|exact Himg].
      by rewrite <- !app_assoc.
  - intros d stem Hslash Hdot Hpath. unfold name. rewrite Hpath.
    by apply traj_name_of_plain.
Qed.
End NamingTheorems.

Lemma C8_filtered_sample_witness :
  ∃ w', save_sample (example_loader (Some (λ _, Ok None))) 0 "out" example_world
        = (Ok tt, w')
        ∧ files w' = files example_world.
Proof.
  destruct (C8_filtered_sample (example_loader (Some (λ _, Ok None))) 0 "out"
              example_world None
              (logged example_world [IoReadCsv "r/Real/events/traj001.csv"]))
    as (sample & Hsample & H); [reflexivity|].
  vm_compute in Hsample. injection Hsample as <-.
  destruct H as (w' & evs & H1 & H2 & _); [right; reflexivity|].
  exists w'. split; [exact H1|exact H2].
Defined.

Lemma C9_label_copy_witness :
  ∃ w', save_sample
          (example_loader (Some (λ _, Ok (Some [float_0_0; float_0_5; float_1_0]))))
          0 "out" example_world
        = (Err FileNotFoundError, w').
Proof.
  destruct (C9_label_copy
              (example_loader (Some (λ _, Ok (Some [float_0_0; float_0_5; float_1_0]))))
              0 "out" example_world [float_0_0; float_0_5; float_1_0] None
              (logged example_world [IoReadCsv "r/Real/events/traj001.csv"]))
    as (sample & Hsample & H); [reflexivity|].
  vm_compute in Hsample. injection Hsample as <-.
  destruct H as (r & w' & H1 & _ & H2 & _); [right; reflexivity|].
  exists w'. rewrite H1, H2; reflexivity.
Defined.

Lemma C10_frame_names_witness :
  ∃ r w' evs,
    save_sample
      (example_loader (Some (λ _, Ok (Some [float_0_0; float_0_5; float_1_0]))))
      0 "out" example_world
    = (r, w')
    ∧ trace w' = evs
    ∧ saved_images evs = ["out/traj001/img000_001.png"].
Proof.
  destruct (C10_frame_names
              (example_loader (Some (λ _, Ok (Some [float_0_0; float_0_5; float_1_0]))))
              0 "out" example_world [float_0_0; float_0_5; float_1_0] None
              (logged example_world [IoReadCsv "r/Real/events/traj001.csv"]))
    as (sample & Hsample & H & _); [reflexivity|].
  vm_compute in Hsample. injection Hsample as <-.
  destruct H as (r & w' & evs & H1 & H2 & H3); [right; reflexivity|].
  exists r, w', evs. split; [exact H1|]. split; [exact H2|]. rewrite H3. reflexivity.
Defined.

(** * Further properties *)

(** ** The accessor: effects, results and failures *)

Section AccessorFurther.
Context `{!ArrayLib}.

Lemma getitem_reads (self : SamplesDataLoader) (idx : Z) (w : world) r w1 :
  __getitem__ self idx w = (r, w1) →
  ∃ evs, w1 = logged w evs ∧ Forall is_read evs ∧ (length evs ≤ 2)%nat.
Proof.
  rewrite getitem_eq. intros Hget.
  assert (∀ evs r', (r', logged w evs) = (r, w1) → Forall is_read evs → (length evs ≤ 2)%nat →
            ∃ evs, w1 = logged w evs ∧ Forall is_read evs ∧ (length evs ≤ 2)%nat)
    as Hgoal.
  { intros evs r' [= <- <-] ??. eauto. }
  destruct (py_getitem (self_samples self) idx) as [[event_file label_file]|e].
  - destruct (events_of self (files w) event_file) as [events|e].
    + destruct label_file as [label_file|];
        (eapply Hgoal; [exact Hget| |]; [repeat constructor|cbn; lia]).
    + eapply Hgoal; [exact Hget| |]; [repeat constructor|cbn; lia].
  - eapply (Hgoal []); [by rewrite logged_nil|constructor|cbn; lia].
Qed.

(** X1: fetching never writes: whatever the outcome, the files and the
    directories are as before, and the only collaborator calls made are reads
    of tabular files, at most two of them. *)
Theorem getitem_read_only (self : SamplesDataLoader) (idx : Z) (w : world) r w1 :
  __getitem__ self idx w = (r, w1) →
  files w1 = files w ∧ dirs w1 = dirs w
  ∧ ∃ evs, trace w1 = (trace w ++ evs)%list ∧ Forall is_read evs ∧ (length evs ≤ 2)%nat.
Proof.
  intros Hget. destruct (getitem_reads _ _ _ _ _ Hget) as (evs & -> & Hread & Hlen).
  split; [done|]. split; [done|]. by exists evs.
Qed.

Lemma getitem_loaded (self : SamplesDataLoader) (idx : Z) (w : world)
    (event_file : string) (label_file : option string) (rows : list (list cell))
    (transform : structured_array → result transformed) :
  py_getitem (self_samples self) idx = Ok (event_file, label_file) →
  self_transform self = Some transform →
  files w !! event_file = Some (CsvFile rows) →
  Forall coercible rows →
  ∃ records,
    Forall2 decodes_to rows records
    ∧ __getitem__ self idx w
      = match transform (StructuredArray event_dtype records) with
        | Err e => (Err e, logged w [IoReadCsv event_file])
        | Ok events =>
            match label_file with
            | None => (Ok (events, None), logged w [IoReadCsv event_file])
            | Some label_file =>
                (match labels_of (files w) label_file with
                 | Ok labels => Ok (events, Some labels)
                 | Err e => Err e
                 end, logged w [IoReadCsv event_file; IoReadCsv label_file])
            end
        end.
Proof.
  intros Hidx Htr Hfile Hrows.
  destruct (np_array_coercible rows Hrows) as (records & Harr & Hrec).
  exists records. split.
  { eapply Forall2_impl; [exact Hrec|]. by intros ?? [_ ?]. }
  rewrite getitem_eq, Hidx. unfold events_of. by rewrite Hfile, Harr, Htr.
Qed.

(** X2: a fetch that succeeds returns the transform's output on the decoded
    rows together with the label table, its first row split off as the
    header; the event file is read first, then the label file.  With no label
    source the labels are absent and only the event file is read. *)
Theorem getitem_sample (self : SamplesDataLoader) (idx : Z) (w : world)
    (event_file : string) (label_file : option string) (rows : list (list cell))
    (transform : structured_array → result transformed) :
  py_getitem (self_samples self) idx = Ok (event_file, label_file) →
  self_transform self = Some transform →
  files w !! event_file = Some (CsvFile rows) →
  Forall coercible rows →
  ∃ records,
    Forall2 decodes_to rows records
    ∧ ∀ events, transform (StructuredArray event_dtype records) = Ok events →
        (label_file = None →
         __getitem__ self idx w = (Ok (events, None), logged w [IoReadCsv event_file]))
        ∧ (∀ path header table,
             label_file = Some path → files w !! path = Some (CsvFile (header :: table)) →
             __getitem__ self idx w
             = (Ok (events, Some (RecArray header table)),
                logged w [IoReadCsv event_file; IoReadCsv path])).
Proof.
  intros Hidx Htr Hfile Hrows.
  destruct (getitem_loaded _ _ _ _ _ _ _ Hidx Htr Hfile Hrows) as (records & Hrec & Hget).
  exists records. split; [done|]. intros events Hev. rewrite Hev in Hget. split.
  - intros ->. done.
  - intros path header table -> Hlab. rewrite Hget. unfold labels_of. by rewrite Hlab.
Qed.

(** X3: a label source that does not exist is only noticed at fetch time:
    the events are read, decoded and transformed, and then reading the label
    file, which is neither a file nor a directory, fails with a not-found
    error. *)
Theorem getitem_missing_label (self : SamplesDataLoader) (idx : Z) (w : world)
    (event_file label_file : string) (rows : list (list cell))
    (transform : structured_array → result transformed) :
  py_getitem (self_samples self) idx = Ok (event_file, Some label_file) →
  self_transform self = Some transform →
  files w !! event_file = Some (CsvFile rows) →
  Forall coercible rows →
  (∀ arr, is_Ok (transform arr)) →
  files w !! label_file = None → dirs w !! label_file = None →
  __getitem__ self idx w
  = (Err FileNotFoundError, logged w [IoReadCsv event_file; IoReadCsv label_file]).
Proof.
  intros Hidx Htr Hfile Hrows Hok Hlab _.
  destruct (getitem_loaded _ _ _ _ _ _ _ Hidx Htr Hfile Hrows) as (records & _ & Hget).
  destruct (Hok (StructuredArray event_dtype records)) as [events Hev].
  rewrite Hget, Hev. unfold labels_of. by rewrite Hlab.
Qed.

Lemma np_array_Err (rows : list (list cell)) (e : exn) :
  np_array rows event_dtype = Err e → e = ValueError.
Proof.
  unfold np_array. intros Harr.
  destruct (mapM (convert_tuple event_dtype) rows) as [records|e'] eqn:Hmap; [done|].
  injection Harr as <-.
  assert (∀ l e, mapM (convert_tuple event_dtype) l = Err e → e = ValueError) as Hall;
    [|by apply (Hall rows)].
  clear. intros l. induction l as [|row l IH]; intros e; [done|].
  cbn [mapM]. destruct (convert_tuple event_dtype row) as [record|e1] eqn:Hrow.
  - destruct (mapM (convert_tuple event_dtype) l) as [records|e2]; [done|].
    intros [= <-]. by apply IH.
  - intros [= <-]. by apply convert_tuple_Err with row.
Qed.


(** X5: the schema assertions of the event codec never fire: a fetch fails
    with an assertion error only if the transform itself returned it. *)
Theorem getitem_assertions_hold (self : SamplesDataLoader) (idx : Z) (w w1 : world) :
  __getitem__ self idx w = (Err AssertionError, w1) →
  ∃ transform arr,
    self_transform self = Some transform ∧ transform arr = Err AssertionError.
Proof.
  rewrite getitem_eq.
  destruct (py_getitem (self_samples self) idx) as [[event_file label_file]|e] eqn:Hidx.
  - destruct (events_of self (files w) event_file) as [events|e] eqn:Hev.
    + destruct label_file as [label_file|]; [|done].
      unfold labels_of. destruct (files w !! label_file) as [[[|header rows]|frame]|]; done.
    + intros [= -> <-]. unfold events_of in Hev.
      destruct (files w !! event_file) as [[rows|frame]|]; [|done|done].
      destruct (np_array rows event_dtype) as [arr|e] eqn:Harr.
      * destruct (self_transform self) as [transform|]; [|done]. by exists transform, arr.
      * injection Hev as ->. by apply np_array_Err in Harr.
  - intros [= -> <-]. unfold py_getitem, getitem_nat in Hidx.
    repeat case_decide; try done; destruct (_ !! _); done.
Qed.
End AccessorFurther.

(** ** The index builder and the constructor *)

Lemma py_endswith_app_r (a b suffix : string) :
  py_endswith b suffix = true → py_endswith (a +:+ b) suffix = true.
Proof.
  intros Hb. induction a as [|c a IH]; [done|].
  rewrite string_app_cons. cbn [py_endswith]. rewrite IH. apply orb_true_r.
Qed.

Lemma os_path_join_endswith (d f suffix : string) :
  py_endswith f suffix = true → py_endswith (os_path_join d f) suffix = true.
Proof.
  intros Hf. unfold os_path_join.
  destruct (py_startswith f "/"); [done|]. destruct (decide (d = "")); [done|].
  destruct (py_endswith d "/"); repeat apply py_endswith_app_r; done.
Qed.

Lemma os_listdir_effect (path : string) (w : world) r w' :
  os_listdir path w = (r, w') →
  w' = logged w [IoListdir path]
  ∧ ∀ names, r = Ok names → dirs w !! strip_trailing_slash path = Some names.
Proof.
  unfold os_listdir. io_simpl. cbn [files dirs trace].
  destruct (dirs w !! strip_trailing_slash path) as [names|];
    [|destruct (files w !! path)]; intros [= <- <-]; split; try done.
  by intros ? [= <-].
Qed.

Lemma load_samples_cases (root variant : string) (w : world) r w' :
  _load_samples root variant w = (r, w') →
  (w' = w ∧ r = Ok [] ∧ variant ≠ "synthetic" ∧ variant ≠ "Real")
  ∨ (w' = logged w [IoListdir (events_dir_of root variant)]
     ∧ (variant = "synthetic" ∨ variant = "Real")
     ∧ ((∃ e, r = Err e ∧ dirs w !! strip_trailing_slash (events_dir_of root variant) = None)
        ∨ ∃ names,
            dirs w !! strip_trailing_slash (events_dir_of root variant) = Some names
            ∧ r = Ok ((λ f, (os_path_join (events_dir_of root variant) f,
                             if decide (variant = "synthetic")
                             then Some (os_path_join (labels_dir_of root variant) f)
                             else None))
                        <$> filter is_csv (py_sorted names)))).
Proof.
  destruct (decide (variant = "synthetic")) as [->|Hs];
    [|destruct (decide (variant = "Real")) as [->|Hr]].
  - rewrite _load_samples_synthetic.
    destruct (os_listdir _ w) as [[names|e] w1] eqn:Hls;
      destruct (os_listdir_effect _ _ _ _ Hls) as [-> Hnames]; intros [= <- <-]; right.
    + split; [done|]. split; [by left|]. right. exists names. split; [by apply Hnames|done].
    + split; [done|]. split; [by left|]. left. exists e. split; [done|].
      revert Hls. unfold os_listdir. io_simpl. cbn [files dirs trace].
      by destruct (dirs w !! _).
  - rewrite _load_samples_Real.
    destruct (os_listdir _ w) as [[names|e] w1] eqn:Hls;
      destruct (os_listdir_effect _ _ _ _ Hls) as [-> Hnames]; intros [= <- <-]; right.
    + split; [done|]. split; [by right|]. right. exists names. split; [by apply Hnames|done].
    + split; [done|]. split; [by right|]. left. exists e. split; [done|].
      revert Hls. unfold os_listdir. io_simpl. cbn [files dirs trace].
      by destruct (dirs w !! _).
  - rewrite _load_samples_other by done. intros [= <- <-]. by left.
Qed.

Lemma sorted_csv_unique (names1 names2 : list string) :
  filter is_csv names1 ≡ₚ filter is_csv names2 →
  filter is_csv (py_sorted names1) = filter is_csv (py_sorted names2).
Proof.
  intros Hperm. apply (StronglySorted_unique String.le); try apply py_sorted_csv_sorted.
  by rewrite !py_sorted_csv_perm.
Qed.

(** X6: the index does not depend on the order in which the directory is
    listed, nor on the entries without the tabular extension: two listings
    with the same [.csv] names give the same index. *)
Theorem index_listing_independent (root variant : string) (w1 w2 : world)
    (names1 names2 : list string) :
  dirs w1 !! strip_trailing_slash (events_dir_of root variant) = Some names1 →
  dirs w2 !! strip_trailing_slash (events_dir_of root variant) = Some names2 →
  filter is_csv names1 ≡ₚ filter is_csv names2 →
  (_load_samples root variant w1).1 = (_load_samples root variant w2).1.
Proof.
  intros H1 H2 Hperm.
  destruct (_load_samples root variant w1) as [r1 w1'] eqn:Hl1.
  destruct (_load_samples root variant w2) as [r2 w2'] eqn:Hl2.
  apply load_samples_cases in Hl1, Hl2. cbn [fst].
  destruct Hl1 as [(_ & -> & Hs & Hr)|(_ & Hv & Hl1)].
  - destruct Hl2 as [(_ & -> & _)|(_ & [?|?] & _)]; done.
  - destruct Hl2 as [(_ & _ & Hs & Hr)|(_ & _ & Hl2)]; [by destruct Hv|].
    destruct Hl1 as [(? & _ & ?)|(n1 & Hn1 & ->)]; [congruence|].
    destruct Hl2 as [(? & _ & ?)|(n2 & Hn2 & ->)]; [congruence|].
    rewrite H1 in Hn1. rewrite H2 in Hn2. injection Hn1 as <-. injection Hn2 as <-.
    by rewrite (sorted_csv_unique names1 names2).
Qed.

(** X7: every descriptor of the index names an event source with the tabular
    extension, and carries a label source, with the same extension, exactly
    under the variant [synthetic]. *)
Theorem index_entries (root variant : string) (w : world)
    (samples : list (string * option string)) (w' : world) :
  _load_samples root variant w = (Ok samples, w') →
  Forall (λ d, is_csv d.1
               ∧ (is_Some d.2 ↔ variant = "synthetic")
               ∧ ∀ l, d.2 = Some l → is_csv l) samples.
Proof.
  intros Hl. apply load_samples_cases in Hl as [(_ & [= ->] & _)|(_ & Hv & Hl)];
    [constructor|].
  destruct Hl as [(? & ? & _)|(names & _ & [= ->])]; [done|].
  apply Forall_fmap, Forall_forall. intros f [Hf _]%list_elem_of_filter. cbn.
  split; [by apply os_path_join_endswith|].
  destruct (decide (variant = "synthetic")) as [Hs|Hs].
  - split; [by split|]. intros l [= <-]. by apply os_path_join_endswith.
  - split; [|done]. split; [by intros [? ?]|done].
Qed.

(** X8: constructing the dataset reads no file and changes nothing: at most
    the events directory is listed; the object keeps the root, the variant
    and the transform it was given, and its samples are the index. *)
Theorem init_effect (root variant : string)
    (transform : option (structured_array → result transformed)) (w : world) r w' :
  __init__ root variant transform w = (r, w') →
  files w' = files w ∧ dirs w' = dirs w
  ∧ (trace w' = trace w
     ∨ trace w' = (trace w ++ [IoListdir (events_dir_of root variant)])%list)
  ∧ ∀ self, r = Ok self →
      self_root_dir self = root ∧ self_dataset_type self = variant
      ∧ self_transform self = transform
      ∧ (_load_samples root variant w).1 = Ok (self_samples self).
Proof.
  unfold __init__. rewrite io_bind_eq.
  destruct (_load_samples root variant w) as [rs ws] eqn:Hl.
  pose proof (load_samples_cases _ _ _ _ _ Hl) as Hc.
  assert (files ws = files w ∧ dirs ws = dirs w
          ∧ (trace ws = trace w
             ∨ trace ws = (trace w ++ [IoListdir (events_dir_of root variant)])%list))
    as (Hf & Hd & Ht).
  { destruct Hc as [(-> & _)|(-> & _)]; cbn; auto. }
  destruct rs as [samples|e]; intros [= <- <-].
  - do 3 (split; [done|]). by intros self [= <-].
  - do 3 (split; [done|]). by intros self [=].
Qed.

Lemma py_getitem_lookup {A} (l : list A) (i : nat) (x : A) :
  l !! i = Some x → py_getitem l (Z.of_nat i) = Ok x.
Proof.
  intros Hi. pose proof (lookup_lt_Some _ _ _ Hi).
  unfold py_getitem. rewrite decide_True by lia. unfold getitem_nat.
  by rewrite Nat2Z.id, Hi.
Qed.

Section CompositionFurther.
Context `{!ArrayLib}.

(** X9: constructing a synthetic dataset and then fetching index [i] reads
    the [i]-th name with the tabular extension, in sorted order, from the
    events directory, and the file of the same name from the labels
    directory; the index has as many samples as the directory lists such
    names. *)
Theorem init_then_getitem (root : string)
    (tr : option (structured_array → result transformed)) (w : world)
    (names : list string) :
  dirs w !! strip_trailing_slash (events_dir_of root "synthetic") = Some names →
  ∃ self w1,
    __init__ root "synthetic" tr w = (Ok self, w1)
    ∧ length (self_samples self) = length (filter is_csv names)
    ∧ ∀ i f, filter is_csv (py_sorted names) !! i = Some f →
        let event_file := os_path_join (events_dir_of root "synthetic") f in
        let label_file := os_path_join (labels_dir_of root "synthetic") f in
        ∀ transform rows header table,
          tr = Some transform →
          files w !! event_file = Some (CsvFile rows) → Forall coercible rows →
          files w !! label_file = Some (CsvFile (header :: table)) →
          ∃ records,
            Forall2 decodes_to rows records
            ∧ ∀ events, transform (StructuredArray event_dtype records) = Ok events →
                __getitem__ self (Z.of_nat i) w1
                = (Ok (events, Some (RecArray header table)),
                   logged w1 [IoReadCsv event_file; IoReadCsv label_file]).
Proof.
  intros Hdir. unfold __init__. rewrite io_bind_eq, _load_samples_synthetic.
  rewrite (os_listdir_Some _ _ _ Hdir). eexists _, _. split; [done|]. cbn [self_samples].
  split; [etrans; [apply length_fmap|apply Permutation_length, py_sorted_csv_perm]|].
  intros i f Hf transform rows header table -> Hev Hrows Hlab.
  set (event_file := os_path_join (events_dir_of root "synthetic") f) in *.
  set (label_file := os_path_join (labels_dir_of root "synthetic") f) in *.
  set (self := Build_SamplesDataLoader _ _ _ _). set (w1 := World _ _ _).
  assert (py_getitem (self_samples self) (Z.of_nat i) = Ok (event_file, Some label_file))
    as Hidx.
  { apply py_getitem_lookup. cbn [self_samples self]. by rewrite list_lookup_fmap, Hf. }
  destruct (getitem_loaded self (Z.of_nat i) w1 event_file (Some label_file) rows transform
              Hidx eq_refl Hev Hrows) as (records & Hrec & Hget).
  exists records. split; [done|]. intros events Hevents.
  rewrite Hget, Hevents. unfold labels_of. cbn [files w1]. by rewrite Hlab.
Qed.
End CompositionFurther.

(** ** The frame renderer over a concatenation *)

Lemma frame_at_app_l (s1 s2 : list spec_float) (k i : nat) :
  length s1 = (3 * k)%nat → (i < k)%nat → frame_at (s1 ++ s2) i = frame_at s1 i.
Proof.
  intros Hlen Hi. unfold frame_at. rewrite !lookup_app_l by lia. done.
Qed.

Lemma frame_at_app_r (s1 s2 : list spec_float) (k i : nat) :
  length s1 = (3 * k)%nat → frame_at (s1 ++ s2) (k + i) = frame_at s2 i.
Proof.
  intros Hlen. unfold frame_at. rewrite !lookup_app_r by lia.
  replace ((k + i) * 3 + 0 - length s1)%nat with (i * 3 + 0)%nat by lia.
  replace ((k + i) * 3 + 1 - length s1)%nat with (i * 3 + 1)%nat by lia.
  replace ((k + i) * 3 + 2 - length s1)%nat with (i * 3 + 2)%nat by lia.
  done.
Qed.

(** X10: rendering distributes over concatenation at a group boundary: when
    the first stream holds a whole number of runs of three, the frames of the
    concatenation are the frames of the first stream followed by the frames
    of the second. *)
Theorem generate_rgb_app (s1 s2 : list spec_float) (k : nat) :
  length s1 = (3 * k)%nat →
  ∃ frames1 frames2,
    generate_rgb_from_samples s1 = Ok frames1
    ∧ generate_rgb_from_samples s2 = Ok frames2
    ∧ generate_rgb_from_samples (s1 ++ s2) = Ok (frames1 ++ frames2)%list.
Proof.
  intros Hlen. exists (frame_at s1 <$> seq 0 (length s1 / 3)),
    (frame_at s2 <$> seq 0 (length s2 / 3)).
  split; [apply generate_rgb_total|]. split; [apply generate_rgb_total|].
  rewrite generate_rgb_total. f_equal. rewrite length_app, Hlen.
  replace (3 * k + length s2)%nat with (length s2 + k * 3)%nat by lia.
  rewrite Nat.div_add by lia. replace (3 * k)%nat with (k * 3)%nat by lia.
  rewrite Nat.div_mul by lia.
  replace (length s2 / 3 + k)%nat with (k + length s2 / 3)%nat by lia.
  rewrite seq_app, fmap_app. f_equal.
  - apply list_fmap_ext. intros j i Hi. apply lookup_seq in Hi as [-> Hi].
    by apply frame_at_app_l with k.
  - cbn [Nat.add].
    assert (∀ n, seq k n = Nat.add k <$> seq 0 n) as ->
      by (intros n; by rewrite fmap_add_seq, Nat.add_0_r).
    rewrite <- list_fmap_compose.
    apply list_fmap_ext. intros j i _. unfold compose. by apply frame_at_app_r.
Qed.

(** ** The sample name and the frame file names *)







Lemma uint_of_string_zeros (k : nat) (s : string) :
  NilEmpty.uint_of_string (string_repeat "0" k +:+ s)
  = Nat.iter k Decimal.D0 <$> NilEmpty.uint_of_string s.
Proof.
  induction k as [|k IH]; cbn [string_repeat Nat.iter].
  - change ("" +:+ s) with s. by destruct (NilEmpty.uint_of_string s).
  - rewrite string_app_cons. cbn [NilEmpty.uint_of_string]. rewrite IH.
    by destruct (NilEmpty.uint_of_string s).
Qed.

Lemma of_uint_zeros (k : nat) (d : Decimal.uint) :
  Nat.of_uint (Nat.iter k Decimal.D0 d) = Nat.of_uint d.
Proof. induction k as [|k IH]; [done|]. cbn [Nat.iter]. rewrite <- IH. reflexivity. Qed.

Lemma parse_format_03 (i : nat) : parse_number (format_03 i) = Some i.
Proof.
  unfold parse_number, format_03. rewrite uint_of_string_zeros, NilEmpty.usu. cbn.
  by rewrite of_uint_zeros, Unsigned.of_to.
Qed.

Lemma string_app_inv_tail (a b c : string) : a +:+ c = b +:+ c → a = b.
Proof.
  revert b. induction a as [|x a IH]; intros b Heq.
  - destruct b as [|y b]; [done|]. change ("" +:+ c) with c in Heq.
    apply (f_equal String.length) in Heq. rewrite string_app_cons in Heq.
    cbn in Heq. rewrite string_length_app in Heq. lia.
  - destruct b as [|y b].
    + change ("" +:+ c) with c in Heq. apply (f_equal String.length) in Heq.
      rewrite string_app_cons in Heq. cbn in Heq. rewrite string_length_app in Heq. lia.
    + rewrite !string_app_cons in Heq. injection Heq as -> Heq. f_equal. by apply IH.
Qed.

Lemma frame_name_inj (dir suffix : string) (i j : nat) :
  dir +:+ "img" +:+ format_03 i +:+ "_" +:+ suffix +:+ ".png"
  = dir +:+ "img" +:+ format_03 j +:+ "_" +:+ suffix +:+ ".png" → i = j.
Proof.
  intros Heq.
  apply String.app_inj in Heq. apply (String.app_inj "img") in Heq.
  apply string_app_inv_tail in Heq.
  pose proof (parse_format_03 i) as Hi. rewrite Heq, parse_format_03 in Hi. by injection Hi.
Qed.

Lemma frame_path_inj (dir traj_name : string) (i j : nat) :
  frame_path dir traj_name i = frame_path dir traj_name j → i = j.
Proof. apply frame_name_inj. Qed.

(** X12: the frame number, padded to at least three digits, reads back as
    the frame's index, for every index and also beyond 999; so two frames of
    a sample never share a file name. *)
Theorem frame_names_distinct (dir suffix : string) (i j : nat) :
  i ≠ j →
  parse_number (format_03 i) = Some i
  ∧ dir +:+ "img" +:+ format_03 i +:+ "_" +:+ suffix +:+ ".png"
    ≠ dir +:+ "img" +:+ format_03 j +:+ "_" +:+ suffix +:+ ".png".
Proof.
  intros Hij. split; [apply parse_format_03|]. by intros Heq%frame_name_inj.
Qed.

(** ** The materializer: what a run leaves behind *)

Lemma write_frames_snoc (dir traj_name : string) (fs : gmap string file_content)
    (l : list (nat * ndarray3)) (i : nat) (frame : ndarray3) :
  write_frames dir traj_name fs (l ++ [(i, frame)])
  = <[frame_path dir traj_name i := PngFile frame]> (write_frames dir traj_name fs l).
Proof. unfold write_frames. by rewrite foldl_snoc. Qed.

Lemma imap_pair_snoc {A} (l : list A) (x : A) :
  imap (λ i y, (i, y)) (l ++ [x]) = (imap (λ i y, (i, y)) l ++ [(length l, x)])%list.
Proof. rewrite imap_app. cbn. by rewrite Nat.add_0_r. Qed.

Lemma write_frames_frame (dir traj_name : string) (fs : gmap string file_content)
    (frames : list ndarray3) (i : nat) (frame : ndarray3) :
  frames !! i = Some frame →
  write_frames dir traj_name fs (imap (λ i y, (i, y)) frames)
    !! frame_path dir traj_name i = Some (PngFile frame).
Proof.
  revert i frame. induction frames as [|x frames IH] using rev_ind; intros i frame Hi; [done|].
  rewrite imap_pair_snoc, write_frames_snoc.
  destruct (decide (i = length frames)) as [->|Hne].
  - rewrite list_lookup_middle in Hi by done. injection Hi as ->. apply lookup_insert_eq.
  - rewrite lookup_insert_ne by (intros Heq; by apply frame_path_inj in Heq).
    apply IH. rewrite lookup_app_l in Hi; [done|].
    apply lookup_lt_Some in Hi. rewrite length_app in Hi. cbn in Hi. lia.
Qed.

Lemma write_frames_other (dir traj_name : string) (fs : gmap string file_content)
    (frames : list ndarray3) (p : string) :
  (∀ i, (i < length frames)%nat → p ≠ frame_path dir traj_name i) →
  write_frames dir traj_name fs (imap (λ i y, (i, y)) frames) !! p = fs !! p.
Proof.
  induction frames as [|x frames IH] using rev_ind; intros Hp; [done|].
  rewrite imap_pair_snoc, write_frames_snoc. rewrite length_app in Hp. cbn in Hp.
  rewrite lookup_insert_ne by (intros Heq; by apply (Hp (length frames)); [lia|]).
  apply IH. intros i Hi. apply Hp. lia.
Qed.

Lemma label_dst_not_png (dir traj_name : string) :
  py_endswith (label_dst dir traj_name) ".png" = false.
Proof.
  unfold label_dst. rewrite <- !string_app_assoc. by rewrite py_endswith_app_same_length.
Qed.

Lemma frame_events_no_makedirs (dir traj_name : string) (l : list (nat * ndarray3)) :
  Forall (λ ev, ¬ is_makedirs ev) (frame_events dir traj_name l).
Proof.
  unfold frame_events. induction l as [|[i frame] l IH]; [constructor|].
  cbn [mbind list_bind]. repeat constructor; cbn; tauto || done.
Qed.

Section MaterializerFurther.
Context `{!ArrayLib}.

(** X13: with an index out of range [save_sample] fails at once with a range
    error: no directory is created and nothing is read or written. *)
Theorem save_sample_out_of_range (self : SamplesDataLoader) (idx : Z) (out : string)
    (w : world) :
  Z.of_nat (length (self_samples self)) ≤ idx
  ∨ idx < - Z.of_nat (length (self_samples self)) →
  save_sample self idx out w = (Err IndexError, w).
Proof.
  intros Hidx. unfold save_sample. rewrite io_bind_eq. unfold lift at 1.
  by rewrite py_getitem_out_of_range.
Qed.

(** X14: when a regular file sits where the output directory should be,
    materializing fails with a file-exists error raised by the directory
    creation: the sample is never fetched and nothing is written. *)
Theorem save_sample_blocked (self : SamplesDataLoader) (idx : Z) (out : string)
    (w : world) (sample : string * option string) :
  py_getitem (self_samples self) idx = Ok sample →
  let dir := out +:+ "/" +:+ traj_name_of sample.1 +:+ "/" in
  dirs w !! strip_trailing_slash dir = None →
  is_Some (files w !! strip_trailing_slash dir) →
  save_sample self idx out w
  = (Err FileExistsError, logged w [IoExists dir; IoMakedirs dir]).
Proof.
  intros Hidx dir Hd Hf. unfold save_sample.
  rewrite io_bind_eq. unfold lift at 1. rewrite Hidx.
  rewrite io_bind_eq. unfold lift at 1.
  rewrite (py_getitem_last _ "") by apply py_split_nonempty.
  rewrite io_bind_eq. unfold lift at 1.
  rewrite (py_getitem_head _ "") by apply py_split_nonempty.
  fold (traj_name_of sample.1). cbv zeta. fold dir.
  rewrite io_bind_eq.
  assert (os_path_exists dir w = (Ok false, logged w [IoExists dir])) as ->.
  { unfold os_path_exists. io_simpl. cbn [files dirs trace].
    pose proof (out_dir_slash out (traj_name_of sample.1)) as Hslash.
    change (py_endswith dir "/" = true) in Hslash. rewrite Hslash.
    rewrite bool_decide_eq_false_2 by (rewrite Hd; by intros [? ?]). done. }
  rewrite io_bind_eq. cbn [negb].
  assert (os_makedirs dir (logged w [IoExists dir])
          = (Err FileExistsError, logged w [IoExists dir; IoMakedirs dir])) as ->; [|done].
  unfold os_makedirs. io_simpl. cbn [files dirs trace logged].
  rewrite bool_decide_eq_false_2 by (rewrite Hd; by intros [? ?]).
  rewrite bool_decide_eq_true_2 by done. cbn [orb]. by rewrite <- app_assoc.
Qed.

(** X15: when the fetch fails, [save_sample] fails with the same error after
    it has made sure the output directory exists: the directory stays, and no
    file has been written. *)
Theorem save_sample_fetch_error (self : SamplesDataLoader) (idx : Z) (out : string)
    (w : world) (sample : string * option string) (e : exn) (w1 : world) :
  py_getitem (self_samples self) idx = Ok sample →
  __getitem__ self idx w = (Err e, w1) →
  let dir := out +:+ "/" +:+ traj_name_of sample.1 +:+ "/" in
  dir_ready w dir →
  ∃ w' evs,
    save_sample self idx out w = (Err e, w')
    ∧ files w' = files w
    ∧ is_Some (dirs w' !! strip_trailing_slash dir)
    ∧ trace w' = (trace w ++ evs)%list
    ∧ Forall (λ ev, ¬ is_write ev) evs.
Proof.
  intros Hidx Hget dir Hready.
  destruct (getitem_frame _ _ _ _ _ Hget) as (evs & _ & Hevs & Hframe).
  rewrite (save_sample_eq self idx out w sample Hidx Hready).
  change (out_dir out (traj_name_of sample.1)) with dir. rewrite Hframe by done.
  eexists _, (prepare_events w dir ++ evs)%list. split; [done|]. cbn [files dirs trace logged].
  split; [done|]. split; [apply dirs_with_present|]. split; [by rewrite <- app_assoc|].
  apply Forall_app. split; [apply prepare_events_no_write|done].
Qed.

Lemma save_sample_written (self : SamplesDataLoader) (idx : Z) (out : string)
    (w : world) (sample : string * option string) (events : list spec_float)
    (labels : option recarray) (w1 : world) :
  py_getitem (self_samples self) idx = Ok sample →
  __getitem__ self idx w = (Ok (Some events, labels), w1) →
  let name := traj_name_of sample.1 in
  let dir := out_dir out name in
  let written :=
    write_frames dir name (files w)
      (imap (λ i frame, (i, frame)) (frame_at events <$> seq 0 (length events / 3))) in
  dir_ready w dir →
  ∃ w',
    save_sample self idx out w
    = (match files w !! label_src name with
       | Some _ => Ok tt
       | None => Err FileNotFoundError
       end, w')
    ∧ files w' = match files w !! label_src name with
                 | Some c => <[label_dst dir name := c]> written
                 | None => written
                 end
    ∧ dirs w' = dirs_with w dir.
Proof.
  intros Hidx Hget name dir written Hready.
  destruct (getitem_frame _ _ _ _ _ Hget) as (evs & _ & Hevs & Hframe).
  rewrite (save_sample_eq self idx out w sample Hidx Hready).
  fold name. fold dir. rewrite Hframe by done. cbv zeta. rewrite shutil_copy_eq.
  cbn [files dirs trace logged]. fold written.
  unfold written at 1. rewrite write_frames_lookup by apply label_src_not_png.
  destruct (files w !! label_src name); eexists; done.
Qed.

(** X16: a materialization that succeeds leaves every rendered frame under
    its own image name and the label table under [<name>.csv] in the output
    directory; every other file is as before.  The label table is not copied
    onto itself, and no directory is in the way of an output file. *)
Theorem save_sample_success (self : SamplesDataLoader) (idx : Z) (out : string)
    (w : world) (sample : string * option string) (events : list spec_float)
    (labels : option recarray) (w1 : world) (c : file_content) :
  py_getitem (self_samples self) idx = Ok sample →
  __getitem__ self idx w = (Ok (Some events, labels), w1) →
  let name := traj_name_of sample.1 in
  let dir := out +:+ "/" +:+ name +:+ "/" in
  let image i := dir +:+ "img" +:+ format_03 i +:+ "_" +:+ py_slice_from 4 name +:+ ".png" in
  dir_ready w dir →
  files w !! (root_dir +:+ "/synthetic/labels/" +:+ name +:+ ".csv") = Some c →
  root_dir +:+ "/synthetic/labels/" +:+ name +:+ ".csv" ≠ dir +:+ name +:+ ".csv" →
  (∀ p, dirs w !! (dir +:+ p) = None) →
  ∃ w' frames,
    save_sample self idx out w = (Ok tt, w')
    ∧ generate_rgb_from_samples events = Ok frames
    ∧ (∀ i frame, frames !! i = Some frame → files w' !! image i = Some (PngFile frame))
    ∧ files w' !! (dir +:+ name +:+ ".csv") = Some c
    ∧ (∀ p, p ≠ dir +:+ name +:+ ".csv" → (∀ i, (i < length frames)%nat → p ≠ image i) →
         files w' !! p = files w !! p).
Proof.
  intros Hidx Hget name dir image Hready Hsrc _ _.
  destruct (save_sample_written self idx out w sample events labels w1 Hidx Hget Hready)
    as (w' & Hrun & Hfiles & _).
  fold name in Hrun, Hfiles. change (out_dir out name) with dir in Hrun, Hfiles.
  change (files w !! label_src name = Some c) in Hsrc. rewrite Hsrc in Hrun, Hfiles.
  change (label_dst dir name) with (dir +:+ name +:+ ".csv") in Hfiles.
  exists w', (frame_at events <$> seq 0 (length events / 3)).
  split; [done|]. split; [apply generate_rgb_total|]. rewrite Hfiles. split; [|split].
  - intros i frame Hi. rewrite lookup_insert_ne.
    + by apply write_frames_frame.
    + intros Heq. pose proof (label_dst_not_png dir name) as Hd.
      pose proof (frame_path_png dir name i) as Hf. unfold label_dst in Hd.
      rewrite Heq in Hd. unfold image in Hd. unfold frame_path in Hf. congruence.
  - apply lookup_insert_eq.
  - intros p Hp Himg. rewrite lookup_insert_ne by done. by apply write_frames_other.
Qed.

(** X17: when the label source is missing at the fixed path, the failing
    materialization has already saved every frame: the images stay, no label
    file is created, and every other file is as before. *)
Theorem save_sample_partial_output (self : SamplesDataLoader) (idx : Z) (out : string)
    (w : world) (sample : string * option string) (events : list spec_float)
    (labels : option recarray) (w1 : world) :
  py_getitem (self_samples self) idx = Ok sample →
  __getitem__ self idx w = (Ok (Some events, labels), w1) →
  let name := traj_name_of sample.1 in
  let dir := out +:+ "/" +:+ name +:+ "/" in
  let image i := dir +:+ "img" +:+ format_03 i +:+ "_" +:+ py_slice_from 4 name +:+ ".png" in
  dir_ready w dir →
  files w !! (root_dir +:+ "/synthetic/labels/" +:+ name +:+ ".csv") = None →
  dirs w !! (root_dir +:+ "/synthetic/labels/" +:+ name +:+ ".csv") = None →
  (∀ p, dirs w !! (dir +:+ p) = None) →
  ∃ w' frames,
    save_sample self idx out w = (Err FileNotFoundError, w')
    ∧ generate_rgb_from_samples events = Ok frames
    ∧ (∀ i frame, frames !! i = Some frame → files w' !! image i = Some (PngFile frame))
    ∧ (∀ p, (∀ i, (i < length frames)%nat → p ≠ image i) → files w' !! p = files w !! p).
Proof.
  intros Hidx Hget name dir image Hready Hsrc _ _.
  destruct (save_sample_written self idx out w sample events labels w1 Hidx Hget Hready)
    as (w' & Hrun & Hfiles & _).
  fold name in Hrun, Hfiles. change (out_dir out name) with dir in Hrun, Hfiles.
  change (files w !! label_src name = None) in Hsrc. rewrite Hsrc in Hrun, Hfiles.
  exists w', (frame_at events <$> seq 0 (length events / 3)).
  split; [done|]. split; [apply generate_rgb_total|]. rewrite Hfiles. split.
  - intros i frame Hi. by apply write_frames_frame.
  - intros p Himg. by apply write_frames_other.
Qed.

Lemma save_sample_effect (self : SamplesDataLoader) (idx : Z) (out : string)
    (w : world) (sample : string * option string) r w' :
  py_getitem (self_samples self) idx = Ok sample →
  let dir := out_dir out (traj_name_of sample.1) in
  dir_ready w dir →
  save_sample self idx out w = (r, w') →
  dirs w' = dirs_with w dir
  ∧ ∃ evs, trace w' = (trace w ++ prepare_events w dir ++ evs)%list
           ∧ Forall (λ ev, ¬ is_makedirs ev) evs.
Proof.
  intros Hidx dir Hready. rewrite (save_sample_eq self idx out w sample Hidx Hready).
  fold dir.
  destruct (__getitem__ self idx _) as [r1 w1] eqn:Hget.
  destruct (getitem_reads _ _ _ _ _ Hget) as (evs & -> & Hreads & _).
  assert (Forall (λ ev, ¬ is_makedirs ev) evs) as Hevs.
  { eapply Forall_impl; [exact Hreads|]. intros []; cbn; tauto. }
  destruct r1 as [[[events|] labels]|e].
  - cbv zeta. rewrite shutil_copy_eq. cbn [files dirs trace logged].
    set (l := imap _ _).
    destruct (write_frames _ _ _ _ !! _); intros [= <- <-]; cbn [dirs trace logged];
      (split; [done|]);
      exists (evs ++ frame_events dir (traj_name_of sample.1) l
                ++ [IoCopy (label_src (traj_name_of sample.1))
                      (label_dst dir (traj_name_of sample.1))])%list;
      (split; [by rewrite <- !app_assoc|]);
      repeat (apply Forall_app; split); try done;
      try apply frame_events_no_makedirs; repeat constructor; cbn; tauto.
  - intros [= <- <-]. cbn [dirs trace logged]. split; [done|].
    exists (evs ++ [IoPrint rejected_message])%list. split; [by rewrite <- !app_assoc|].
    apply Forall_app. split; [done|]. repeat constructor; cbn; tauto.
  - intros [= <- <-]. cbn [dirs trace logged]. split; [done|].
    exists evs. split; [by rewrite <- !app_assoc|done].
Qed.

(** X18: materializing the same index again into the same output root reuses
    the directory: the second run checks that it exists, never creates a
    directory, and leaves the directories as the first run left them. *)
Theorem save_sample_twice (self : SamplesDataLoader) (idx : Z) (out : string)
    (w : world) (sample : string * option string) r1 w1 r2 w2 :
  py_getitem (self_samples self) idx = Ok sample →
  let dir := out +:+ "/" +:+ traj_name_of sample.1 +:+ "/" in
  dir_ready w dir →
  save_sample self idx out w = (r1, w1) →
  save_sample self idx out w1 = (r2, w2) →
  is_Some (dirs w1 !! strip_trailing_slash dir)
  ∧ dirs w2 = dirs w1
  ∧ ∃ evs, trace w2 = (trace w1 ++ IoExists dir :: evs)%list
           ∧ Forall (λ ev, ¬ is_makedirs ev) evs.
Proof.
  intros Hidx dir Hready Hrun1 Hrun2.
  destruct (save_sample_effect self idx out w sample r1 w1 Hidx Hready Hrun1) as [Hd1 _].
  change (out_dir out (traj_name_of sample.1)) with dir in Hd1.
  assert (is_Some (dirs w1 !! strip_trailing_slash dir)) as Hin.
  { rewrite Hd1. apply dirs_with_present. }
  split; [done|].
  destruct (save_sample_effect self idx out w1 sample r2 w2 Hidx (or_introl Hin) Hrun2)
    as [Hd2 (evs & Htrace & Hevs)].
  change (out_dir out (traj_name_of sample.1)) with dir in Hd2, Htrace.
  unfold dirs_with in Hd2. unfold prepare_events in Htrace.
  rewrite decide_True in Hd2 by done. rewrite decide_True in Htrace by done.
  split; [done|]. by exists evs.
Qed.
End MaterializerFurther.

(** ** The further properties on the scenario *)

Lemma getitem_read_only_witness :
  files (__getitem__ scenario_loader 0 scenario_world).2 = files scenario_world
  ∧ dirs (__getitem__ scenario_loader 0 scenario_world).2 = dirs scenario_world.
Proof.
  destruct (__getitem__ scenario_loader 0 scenario_world) as [r w1] eqn:Hget.
  destruct (getitem_read_only scenario_loader 0 scenario_world r w1 Hget) as (Hf & Hd & _).
  split; [exact Hf|exact Hd].
Defined.

Lemma scenario_events_coercible : Forall coercible scenario_events.
Proof. repeat constructor; eexists _, _, _, _; repeat split; cbn; eauto. Qed.

Lemma scenario_events_decoded (records : list (list scalar)) :
  Forall2 decodes_to scenario_events records →
  timestamps (StructuredArray event_dtype records)
  = Ok (Some [float_0_0; float_0_2; float_0_5; float_1_0]).
Proof.
  unfold scenario_events. intros Hrec.
  repeat match goal with
         | H : Forall2 _ _ _ |- _ => inversion H; clear H; subst
         end.
  repeat match goal with
         | H : decodes_to _ _ |- _ =>
             destruct H as (? & ? & ? & ? & ? & ? & ? & ?
                            & [= <- <- <- <-] & [= <-] & _ & _ & _ & ->)
         end.
  reflexivity.
Qed.

Lemma getitem_sample_witness :
  __getitem__ scenario_loader 0 scenario_world
  = (Ok (Some [float_0_0; float_0_2; float_0_5; float_1_0],
         Some (RecArray [CStr "frame"; CStr "pose"]
                 [[CInt 0; CFloat float_0_5]; [CInt 1; CFloat float_1_0]])),
     logged scenario_world [IoReadCsv "r/synthetic/events/traj001.csv";
                            IoReadCsv "r/synthetic/labels/traj001.csv"]).
Proof.
  destruct (getitem_sample scenario_loader 0 scenario_world
              "r/synthetic/events/traj001.csv" (Some "r/synthetic/labels/traj001.csv")
              scenario_events timestamps eq_refl eq_refl eq_refl scenario_events_coercible)
    as (records & Hrec & Hget).
  destruct (Hget _ (scenario_events_decoded records Hrec)) as [_ Hlab].
  apply (Hlab "r/synthetic/labels/traj001.csv"); reflexivity.
Defined.

Lemma getitem_missing_label_witness :
  __getitem__ scenario_loader 0 unlabelled_world
  = (Err FileNotFoundError,
     logged unlabelled_world [IoReadCsv "r/synthetic/events/traj001.csv";
                              IoReadCsv "r/synthetic/labels/traj001.csv"]).
Proof.
  apply (getitem_missing_label scenario_loader 0 unlabelled_world
           "r/synthetic/events/traj001.csv" "r/synthetic/labels/traj001.csv"
           scenario_events timestamps eq_refl eq_refl eq_refl scenario_events_coercible).
  - intros arr. eexists. reflexivity.
  - reflexivity.
  - reflexivity.
Defined.


Lemma getitem_assertions_hold_witness :
  ∃ transform arr,
    self_transform (example_loader (Some (λ _, Err AssertionError))) = Some transform
    ∧ transform arr = Err AssertionError.
Proof.
  apply (getitem_assertions_hold (example_loader (Some (λ _, Err AssertionError))) 0
           example_world (logged example_world [IoReadCsv "r/Real/events/traj001.csv"])).
  reflexivity.
Defined.

Lemma index_listing_independent_witness :
  (_load_samples "r" "synthetic" scenario_world).1
  = (_load_samples "r" "synthetic"
       (World ∅ {[ "r/synthetic/events" := ["traj001.csv"; "a.txt"; "b.png"] ]} [])).1.
Proof.
  apply (index_listing_independent "r" "synthetic" scenario_world
           (World ∅ {[ "r/synthetic/events" := ["traj001.csv"; "a.txt"; "b.png"] ]} [])
           ["notes.txt"; "traj001.csv"] ["traj001.csv"; "a.txt"; "b.png"]).
  - reflexivity.
  - reflexivity.
  - reflexivity.
Defined.

Lemma index_entries_witness :
  Forall (λ d : string * option string,
            is_csv d.1 ∧ (is_Some d.2 ↔ "synthetic" = "synthetic")
            ∧ ∀ l, d.2 = Some l → is_csv l)
    [("r/synthetic/events/traj001.csv", Some "r/synthetic/labels/traj001.csv")].
Proof.
  apply (index_entries "r" "synthetic" scenario_world _
           (logged scenario_world [IoListdir "r/synthetic/events"])).
  reflexivity.
Defined.

Lemma init_effect_witness :
  files (__init__ "r" "synthetic" (Some timestamps) scenario_world).2 = files scenario_world
  ∧ dirs (__init__ "r" "synthetic" (Some timestamps) scenario_world).2 = dirs scenario_world.
Proof.
  destruct (__init__ "r" "synthetic" (Some timestamps) scenario_world) as [r w'] eqn:Hinit.
  destruct (init_effect "r" "synthetic" (Some timestamps) scenario_world r w' Hinit)
    as (Hf & Hd & _).
  split; [exact Hf|exact Hd].
Defined.

Lemma init_then_getitem_witness :
  ∃ self w1,
    __init__ "r" "synthetic" (Some timestamps) scenario_world = (Ok self, w1)
    ∧ length (self_samples self) = 1%nat
    ∧ ∃ labels,
        (__getitem__ self 0 w1).1
        = Ok (Some [float_0_0; float_0_2; float_0_5; float_1_0], Some labels)
        ∧ length (ra_records labels) = 2%nat.
Proof.
  destruct (init_then_getitem "r" (Some timestamps) scenario_world
              ["notes.txt"; "traj001.csv"] eq_refl) as (self & w1 & Hinit & Hlen & Hget).
  exists self, w1. split; [exact Hinit|]. split; [exact Hlen|].
  destruct (Hget 0%nat "traj001.csv" eq_refl timestamps scenario_events
              [CStr "frame"; CStr "pose"]
              [[CInt 0; CFloat float_0_5]; [CInt 1; CFloat float_1_0]]
              eq_refl eq_refl scenario_events_coercible eq_refl)
    as (records & Hrec & Hfetch).
  exists (RecArray [CStr "frame"; CStr "pose"]
            [[CInt 0; CFloat float_0_5]; [CInt 1; CFloat float_1_0]]).
  split; [|reflexivity].
  change (Z.of_nat 0) with 0 in Hfetch.
  rewrite (Hfetch _ (scenario_events_decoded records Hrec)). reflexivity.
Defined.

Lemma generate_rgb_app_witness :
  ∃ frames1 frames2,
    generate_rgb_from_samples [float_0_0; float_0_5; float_1_0] = Ok frames1
    ∧ generate_rgb_from_samples [float_0_2] = Ok frames2
    ∧ generate_rgb_from_samples ([float_0_0; float_0_5; float_1_0] ++ [float_0_2])
      = Ok (frames1 ++ frames2)%list.
Proof. apply (generate_rgb_app [float_0_0; float_0_5; float_1_0] [float_0_2] 1). reflexivity. Defined.

Lemma frame_names_distinct_witness :
  "out/traj001/" +:+ "img" +:+ format_03 9 +:+ "_" +:+ "001" +:+ ".png"
  ≠ "out/traj001/" +:+ "img" +:+ format_03 10 +:+ "_" +:+ "001" +:+ ".png".
Proof. apply (frame_names_distinct "out/traj001/" "001" 9 10). lia. Defined.

Lemma save_sample_out_of_range_witness :
  save_sample scenario_loader 1 "out" scenario_world = (Err IndexError, scenario_world).
Proof. apply (save_sample_out_of_range scenario_loader 1 "out" scenario_world). left. cbn. lia. Defined.

Lemma save_sample_blocked_witness :
  save_sample scenario_loader 0 "out" blocked_world
  = (Err FileExistsError,
     logged blocked_world [IoExists "out/traj001/"; IoMakedirs "out/traj001/"]).
Proof.
  apply (save_sample_blocked scenario_loader 0 "out" blocked_world
           ("r/synthetic/events/traj001.csv", Some "r/synthetic/labels/traj001.csv") eq_refl).
  - reflexivity.
  - eexists. reflexivity.
Defined.

Lemma save_sample_fetch_error_witness :
  ∃ w' evs,
    save_sample scenario_loader 0 "out" unlabelled_world = (Err FileNotFoundError, w')
    ∧ files w' = files unlabelled_world
    ∧ is_Some (dirs w' !! "out/traj001")
    ∧ trace w' = evs
    ∧ Forall (λ ev, ¬ is_write ev) evs.
Proof.
  destruct (save_sample_fetch_error scenario_loader 0 "out" unlabelled_world
              ("r/synthetic/events/traj001.csv", Some "r/synthetic/labels/traj001.csv")
              FileNotFoundError
              (logged unlabelled_world [IoReadCsv "r/synthetic/events/traj001.csv";
                                        IoReadCsv "r/synthetic/labels/traj001.csv"]))
    as (w' & evs & Hrun & Hfiles & Hdir & Htrace & Hevs).
  { reflexivity. }
  { reflexivity. }
  { right. reflexivity. }
  exists w', evs. split; [exact Hrun|]. split; [exact Hfiles|]. split; [exact Hdir|].
  split; [exact Htrace|exact Hevs].
Defined.

Lemma save_sample_success_witness :
  ∃ w' frame,
    save_sample scenario_loader 0 "out" materialize_world = (Ok tt, w')
    ∧ files w' !! "out/traj001/img000_001.png" = Some (PngFile frame)
    ∧ pixel frame 0 0 1 = Some 51
    ∧ files w' !! "out/traj001/traj001.csv" = Some (CsvFile scenario_labels)
    ∧ files w' !! "r/synthetic/events/traj001.csv" = Some (CsvFile scenario_events).
Proof.
  destruct (save_sample_success scenario_loader 0 "out" materialize_world
              ("r/synthetic/events/traj001.csv", Some "r/synthetic/labels/traj001.csv")
              [float_0_0; float_0_2; float_0_5; float_1_0]
              (Some (RecArray [CStr "frame"; CStr "pose"]
                       [[CInt 0; CFloat float_0_5]; [CInt 1; CFloat float_1_0]]))
              (logged materialize_world [IoReadCsv "r/synthetic/events/traj001.csv";
                                         IoReadCsv "r/synthetic/labels/traj001.csv"])
              (CsvFile scenario_labels))
    as (w' & frames & Hrun & Hframes & Himg & Hlab & Hother).
  { reflexivity. }
  { reflexivity. }
  { right. reflexivity. }
  { reflexivity. }
  { discriminate. }
  { intros p. reflexivity. }
  assert (frames = [frame_at [float_0_0; float_0_2; float_0_5; float_1_0] 0]) as ->.
  { rewrite generate_rgb_total in Hframes. by injection Hframes as <-. }
  exists w', (frame_at [float_0_0; float_0_2; float_0_5; float_1_0] 0).
  split; [exact Hrun|]. split; [exact (Himg 0%nat _ eq_refl)|]. split; [reflexivity|].
  split; [exact Hlab|]. rewrite Hother; [reflexivity|discriminate|].
  intros i _. unfold format_03.
  destruct (NilEmpty.string_of_uint (Nat.to_uint i)); discriminate.
Defined.

Lemma save_sample_partial_output_witness :
  ∃ w' frame,
    save_sample scenario_loader 0 "out" scenario_world = (Err FileNotFoundError, w')
    ∧ files w' !! "out/traj001/img000_001.png" = Some (PngFile frame)
    ∧ files w' !! "out/traj001/traj001.csv" = None.
Proof.
  destruct (save_sample_partial_output scenario_loader 0 "out" scenario_world
              ("r/synthetic/events/traj001.csv", Some "r/synthetic/labels/traj001.csv")
              [float_0_0; float_0_2; float_0_5; float_1_0]
              (Some (RecArray [CStr "frame"; CStr "pose"]
                       [[CInt 0; CFloat float_0_5]; [CInt 1; CFloat float_1_0]]))
              (logged scenario_world [IoReadCsv "r/synthetic/events/traj001.csv";
                                      IoReadCsv "r/synthetic/labels/traj001.csv"]))
    as (w' & frames & Hrun & Hframes & Himg & Hother).
  { reflexivity. }
  { reflexivity. }
  { right. reflexivity. }
  { reflexivity. }
  { reflexivity. }
  { intros p. reflexivity. }
  assert (frames = [frame_at [float_0_0; float_0_2; float_0_5; float_1_0] 0]) as ->.
  { rewrite generate_rgb_total in Hframes. by injection Hframes as <-. }
  exists w', (frame_at [float_0_0; float_0_2; float_0_5; float_1_0] 0).
  split; [exact Hrun|]. split; [exact (Himg 0%nat _ eq_refl)|].
  rewrite Hother; [reflexivity|].
  intros i _. unfold format_03.
  destruct (NilEmpty.string_of_uint (Nat.to_uint i)); discriminate.
Defined.

Lemma save_sample_twice_witness :
  dirs (save_sample scenario_loader 0 "out"
          (save_sample scenario_loader 0 "out" materialize_world).2).2
  = dirs (save_sample scenario_loader 0 "out" materialize_world).2.
Proof.
  destruct (save_sample scenario_loader 0 "out" materialize_world) as [r1 w1] eqn:Hrun1.
  cbn [snd].
  destruct (save_sample scenario_loader 0 "out" w1) as [r2 w2] eqn:Hrun2.
  destruct (save_sample_twice scenario_loader 0 "out" materialize_world
              ("r/synthetic/events/traj001.csv", Some "r/synthetic/labels/traj001.csv")
              r1 w1 r2 w2 eq_refl) as (_ & Hdirs & _).
  - right. reflexivity.
  - exact Hrun1.
  - exact Hrun2.
  - exact Hdirs.
Defined.
